(** * GL::GeometryBuffer (rts/Rendering/GL/GeometryBuffer.cpp)

    A shallow embedding of the geometry-buffer lifecycle code of the Spring
    engine, and the properties of it that the specification talks about.

    Modelling conventions.
    - The object's member fields are a record; member functions are
      computations in a small state monad over that record.
    - Every call that leaves the object (OpenGL entry points and the
      methods of the owned FBO) is appended to a chronological call log.
    - [assert] is modelled as in a build where assertions are compiled in:
      a failing assertion aborts the computation.
    - What the driver answers (the texture name written by glGenTextures,
      the verdict of FBO::CheckStatus) is a function of the calls made so
      far; these functions are parameters of the development. *)

From Stdlib Require Import ZArith Lia.
From Stdlib Require Import Floats.SpecFloat.
From stdpp Require Import base list.

Local Open Scope Z_scope.

(** ** OpenGL constants (values of the Khronos headers) *)

Module GLenum.
Definition GL_TEXTURE_2D          : Z := 0x0DE1.
Definition GL_TEXTURE_MAG_FILTER  : Z := 0x2800.
Definition GL_TEXTURE_MIN_FILTER  : Z := 0x2801.
Definition GL_TEXTURE_WRAP_S      : Z := 0x2802.
Definition GL_TEXTURE_WRAP_T      : Z := 0x2803.
Definition GL_LINEAR              : Z := 0x2601.
Definition GL_CLAMP_TO_BORDER     : Z := 0x812D.
Definition GL_DEPTH_TEXTURE_MODE  : Z := 0x884B.
Definition GL_LUMINANCE           : Z := 0x1909.
Definition GL_DEPTH_COMPONENT     : Z := 0x1902.
Definition GL_DEPTH_COMPONENT32F  : Z := 0x8CAC.
Definition GL_RGBA                : Z := 0x1908.
Definition GL_FLOAT               : Z := 0x1406.
Definition GL_UNSIGNED_BYTE       : Z := 0x1401.
Definition GL_COLOR_ATTACHMENT0   : Z := 0x8CE0.
Definition GL_DEPTH_ATTACHMENT    : Z := 0x8D00.
Definition GL_COLOR_BUFFER_BIT    : Z := 0x4000.
Definition GL_DEPTH_BUFFER_BIT    : Z := 0x0100.
Definition GL_LEQUAL              : Z := 0x0203.
End GLenum.
Import GLenum.

(** Arithmetic on [GLenum] / [unsigned int] wraps at 32 bits. *)
Definition u32 (z : Z) : Z := z mod 2 ^ 32.

(** ** Data *)

(** [int2]: a pair of C [int]s, compared component-wise by [operator==]. *)
Record int2 : Type := mkInt2 { x : Z; y : Z }.

Definition int2_eqb (a b : int2) : bool := (x a =? x b) && (y a =? y b).

(** The two fields of [globalRendering] that the buffer reads. *)
Record CGlobalRendering : Type := mkGR { viewSizeX : Z; viewSizeY : Z }.

(** One entry of the call log.  [glGenTextures] carries the name the driver
    wrote into the slot; array arguments are carried by value. *)
Inductive GLCall : Type :=
| glGenTextures (written : Z)
| glBindTexture (target texture : Z)
| glTexParameteri (target pname param : Z)
| glTexImage2D (target level internalformat width height border format type : Z)
| glDrawBuffers (n : nat) (bufs : list Z)
| glDeleteTextures (n : nat) (textures : list Z)
| glClearColor (r g b a : spec_float)
| glClear (mask : Z)
| glClearDepth (depth : spec_float)
| DepthFunc (func : Z)
| FBO_Bind
| FBO_Unbind
| FBO_Detach (attachment : Z)
| FBO_AttachTexture (texId texTarget attachment : Z)
| FBO_CheckStatus.

(** The member fields of [GL::GeometryBuffer].  The two arrays have
    [ATTACHMENT_COUNT] entries each. *)
Record GeometryBuffer (FBO : Type) : Type := mkGB {
  bufferTextureIDs  : list Z;
  bufferAttachments : list Z;
  prevBufferSize    : int2;
  currBufferSize    : int2;
  dead              : bool;
  bound             : bool;
  buffer            : FBO
}.
Arguments mkGB {FBO} _ _ _ _ _ _ _.
Arguments bufferTextureIDs {FBO} _.
Arguments bufferAttachments {FBO} _.
Arguments prevBufferSize {FBO} _.
Arguments currBufferSize {FBO} _.
Arguments dead {FBO} _.
Arguments bound {FBO} _.
Arguments buffer {FBO} _.

(** ** The monad: state, call log, assertion failure *)

Inductive Outcome (S A : Type) : Type :=
| Returned (a : A) (self : S) (calls : list GLCall)
| AssertionFailed (calls : list GLCall).
Arguments Returned {S A} _ _ _.
Arguments AssertionFailed {S A} _.

Definition M (S A : Type) : Type := S -> list GLCall -> Outcome S A.

Definition ret {S A} (a : A) : M S A := fun s log => Returned a s log.

Definition bind {S A B} (m : M S A) (k : A -> M S B) : M S B :=
  fun s log =>
    match m s log with
    | Returned a s' log' => k a s' log'
    | AssertionFailed log' => AssertionFailed log'
    end.

Declare Scope gb_scope.
Delimit Scope gb_scope with gb.
Notation "'let*' v := m 'in' k" := (bind m (fun v => k))
  (at level 10, v name, m at level 100, k at level 200) : gb_scope.
Notation "m ;;; k" := (bind m (fun _ => k))
  (at level 100, k at level 200, right associativity) : gb_scope.
Local Open Scope gb_scope.

Definition assert {S} (c : bool) : M S unit :=
  fun s log => if c then Returned tt s log else AssertionFailed log.

Definition call {S} (c : GLCall) : M S unit :=
  fun s log => Returned tt s (log ++ [c]).

Definition get {S} : M S S := fun s log => Returned s s log.

Definition modify {S} (f : S -> S) : M S unit :=
  fun s log => Returned tt (f s) log.

Definition history {S} : M S (list GLCall) := fun s log => Returned log s log.

(** [for (n = i; n < i + k; n++) body(n)] *)
Fixpoint forUp {S} (i k : nat) (body : nat -> M S unit) : M S unit :=
  match k with
  | O => ret tt
  | Datatypes.S k' => body i ;;; forUp (Datatypes.S i) k' body
  end.

(** [for (; n > 0; n--) body(n - 1)] *)
Fixpoint forDown {S} (n : nat) (body : nat -> M S unit) : M S unit :=
  match n with
  | O => ret tt
  | Datatypes.S m => body m ;;; forDown m body
  end.

(** ** The member functions *)

Section GeometryBuffer.
Context {FBO : Type}.

(** [FBO::IsValid] and [FBO::CheckStatus] live in the FBO class, which
    this file takes as given: the object's validity is a function of its
    state, and a status check answers from the calls made so far and may
    update the object (the note in [Create]: "CheckStatus can still
    invalidate it").  Bind, Unbind, Detach and AttachTexture only reach
    the driver.  The [name] argument of CheckStatus is not modelled. *)
Variable IsValid : FBO -> bool.
Variable CheckStatus : list GLCall -> FBO -> bool * FBO.

(** The texture name the driver hands out, given the calls so far. *)
Variable genName : list GLCall -> Z.

(** The slot enumeration of GeometryBuffer.h: the number of slots (at
    least one) and the index of the depth slot. *)
Variables ATTACHMENT_COUNT ATTACHMENT_ZVALTEX : nat.

#[local] Abbreviation GB := (GeometryBuffer FBO).
#[local] Abbreviation Op := (M GB).

Definition set_bufferTextureIDs (v : list Z) (s : GB) : GB :=
  mkGB v (bufferAttachments s) (prevBufferSize s) (currBufferSize s)
       (dead s) (bound s) (buffer s).
Definition set_bufferAttachments (v : list Z) (s : GB) : GB :=
  mkGB (bufferTextureIDs s) v (prevBufferSize s) (currBufferSize s)
       (dead s) (bound s) (buffer s).
Definition set_prevBufferSize (v : int2) (s : GB) : GB :=
  mkGB (bufferTextureIDs s) (bufferAttachments s) v (currBufferSize s)
       (dead s) (bound s) (buffer s).
Definition set_currBufferSize (v : int2) (s : GB) : GB :=
  mkGB (bufferTextureIDs s) (bufferAttachments s) (prevBufferSize s) v
       (dead s) (bound s) (buffer s).
Definition set_dead (v : bool) (s : GB) : GB :=
  mkGB (bufferTextureIDs s) (bufferAttachments s) (prevBufferSize s)
       (currBufferSize s) v (bound s) (buffer s).
Definition set_bound (v : bool) (s : GB) : GB :=
  mkGB (bufferTextureIDs s) (bufferAttachments s) (prevBufferSize s)
       (currBufferSize s) (dead s) v (buffer s).
Definition set_buffer (v : FBO) (s : GB) : GB :=
  mkGB (bufferTextureIDs s) (bufferAttachments s) (prevBufferSize s)
       (currBufferSize s) (dead s) (bound s) v.

(** [memset(&a[0], 0, sizeof(a))] on an array of [ATTACHMENT_COUNT]. *)
Definition zeroed : list Z := replicate ATTACHMENT_COUNT 0.

(** [a[n]] and [a[n] = v] *)
Definition at_ (a : list Z) (n : nat) : Z := default 0 (a !! n).

Definition GetWantedSize (gr : CGlobalRendering) (allowed : bool) : int2 :=
  if allowed then mkInt2 (viewSizeX gr) (viewSizeY gr) else mkInt2 0 0.

(** Modelled from the spec: [HasAttachments] is declared in
    GeometryBuffer.h; the specification gives it as "any slot's tag is
    non-empty". *)
Definition HasAttachments (s : GB) : bool :=
  existsb (fun tag => negb (tag =? 0)) (bufferAttachments s).

Definition Init (gr : CGlobalRendering) (ctor : bool) : Op unit :=
  let* s := get in
  (* if dead, this must be a non-ctor reload *)
  assert (negb (dead s) || negb ctor) ;;;
  modify (set_bufferTextureIDs zeroed) ;;;
  modify (set_bufferAttachments zeroed) ;;;
  modify (set_prevBufferSize (GetWantedSize gr false)) ;;;
  modify (set_currBufferSize (GetWantedSize gr true)) ;;;
  modify (set_dead false) ;;;
  modify (set_bound false).

Definition DetachTextures (init : bool) : Op unit :=
  (* nothing to detach yet during init *)
  if init then ret tt else
  call FBO_Bind ;;;
  forUp 0 (ATTACHMENT_COUNT - 1)
    (fun i => call (FBO_Detach (u32 (GL_COLOR_ATTACHMENT0 + Z.of_nat i)))) ;;;
  call (FBO_Detach GL_DEPTH_ATTACHMENT) ;;;
  call FBO_Unbind ;;;
  (let* s := get in
   call (glDeleteTextures ATTACHMENT_COUNT (bufferTextureIDs s))) ;;;
  (* return to incomplete state *)
  modify (set_bufferTextureIDs zeroed) ;;;
  modify (set_bufferAttachments zeroed).

Definition Kill (dtor : bool) : Op unit :=
  let* s := get in
  if dead s then
    (* if already dead, this must be final cleanup *)
    assert dtor
  else
    (if IsValid (buffer s) then DetachTextures false else ret tt) ;;;
    modify (set_dead true).

Definition Clear : Op unit :=
  let* s := get in
  assert (bound s) ;;;
  call (glClearColor (S754_zero false) (S754_zero false)
                     (S754_zero false) (S754_zero false)) ;;;
  call (glClear (Z.lor GL_COLOR_BUFFER_BIT GL_DEPTH_BUFFER_BIT)).

(** [std::max(a, b)] is [(a < b) ? b : a]. *)
Definition std_max (a b : spec_float) : spec_float :=
  if SFltb a b then b else a.

Definition SetDepthRange (nearDepth farDepth : spec_float) : Op unit :=
  call (glClearDepth (std_max nearDepth farDepth)) ;;;
  call (DepthFunc GL_LEQUAL).

(** The body of the first loop of [Create], for slot [n]. *)
Definition allocSlot (size : int2) (n : nat) : Op unit :=
  let* h := history in
  let id := genName h in
  call (glGenTextures id) ;;;
  modify (fun s => set_bufferTextureIDs (<[n := id]> (bufferTextureIDs s)) s) ;;;
  (let* s := get in
   call (glBindTexture GL_TEXTURE_2D (at_ (bufferTextureIDs s) n))) ;;;
  call (glTexParameteri GL_TEXTURE_2D GL_TEXTURE_WRAP_S GL_CLAMP_TO_BORDER) ;;;
  call (glTexParameteri GL_TEXTURE_2D GL_TEXTURE_WRAP_T GL_CLAMP_TO_BORDER) ;;;
  call (glTexParameteri GL_TEXTURE_2D GL_TEXTURE_MIN_FILTER GL_LINEAR) ;;;
  call (glTexParameteri GL_TEXTURE_2D GL_TEXTURE_MAG_FILTER GL_LINEAR) ;;;
  if (n =? ATTACHMENT_ZVALTEX)%nat then
    call (glTexParameteri GL_TEXTURE_2D GL_DEPTH_TEXTURE_MODE GL_LUMINANCE) ;;;
    call (glTexImage2D GL_TEXTURE_2D 0 GL_DEPTH_COMPONENT32F (x size) (y size)
                       0 GL_DEPTH_COMPONENT GL_FLOAT) ;;;
    modify (fun s => set_bufferAttachments
                       (<[n := GL_DEPTH_ATTACHMENT]> (bufferAttachments s)) s)
  else
    call (glTexImage2D GL_TEXTURE_2D 0 GL_RGBA (x size) (y size)
                       0 GL_RGBA GL_UNSIGNED_BYTE) ;;;
    modify (fun s => set_bufferAttachments
                       (<[n := u32 (GL_COLOR_ATTACHMENT0 + Z.of_nat n)]>
                          (bufferAttachments s)) s).

(** The body of the second loop of [Create], for slot [m = n - 1]. *)
Definition attachSlot (m : nat) : Op unit :=
  let* s := get in
  call (FBO_AttachTexture (at_ (bufferTextureIDs s) m) GL_TEXTURE_2D
                          (at_ (bufferAttachments s) m)).

Definition Create (size : int2) : Op bool :=
  forUp 0 ATTACHMENT_COUNT (allocSlot size) ;;;
  (* sic; Mesa complains about an incomplete FBO if calling Bind before TexImage *)
  call FBO_Bind ;;;
  forDown ATTACHMENT_COUNT attachSlot ;;;
  call (glBindTexture GL_TEXTURE_2D 0) ;;;
  (let* s := get in
   call (glDrawBuffers (ATTACHMENT_COUNT - 1)
                       (take (ATTACHMENT_COUNT - 1) (bufferAttachments s)))) ;;;
  let* s := get in
  assert (IsValid (buffer s)) ;;;
  let* h := history in
  let (r, b) := CheckStatus h (buffer s) in
  call FBO_CheckStatus ;;;
  modify (set_buffer b) ;;;
  call FBO_Unbind ;;;
  ret r.

Definition Update (gr : CGlobalRendering) (init : bool) : Op bool :=
  modify (set_currBufferSize (GetWantedSize gr true)) ;;;
  let* s := get in
  (* FBO must be valid from point of construction *)
  if negb (IsValid (buffer s)) then ret false else
  let recreate : Op bool :=
    modify (fun s => set_prevBufferSize (currBufferSize s) s) ;;;
    let* s := get in
    Create (prevBufferSize s) in
  if HasAttachments s then
    if int2_eqb (prevBufferSize s) (currBufferSize s) then ret true
    else DetachTextures init ;;; recreate
  else recreate.

End GeometryBuffer.

(** ** Vocabulary for the statements *)

(** Did the computation stop at a failing assertion? *)
Definition failed {S A} (o : Outcome S A) : bool :=
  match o with Returned _ _ _ => false | AssertionFailed _ => true end.

(** The calls of an outcome's log. *)
Definition calls_of {S A} (o : Outcome S A) : list GLCall :=
  match o with Returned _ _ l => l | AssertionFailed l => l end.

(** The texture names written by the [glGenTextures] calls of a log. *)
Fixpoint generated (l : list GLCall) : list Z :=
  match l with
  | [] => []
  | glGenTextures id :: l' => id :: generated l'
  | _ :: l' => generated l'
  end.

(** Calls that create and configure a texture image. *)
Definition isTextureSetup (c : GLCall) : bool :=
  match c with
  | glGenTextures _ | glBindTexture _ _ | glTexParameteri _ _ _
  | glTexImage2D _ _ _ _ _ _ _ _ => true
  | _ => false
  end.

(** The image allocation proper. *)
Definition isTexImage (c : GLCall) : bool :=
  match c with glTexImage2D _ _ _ _ _ _ _ _ => true | _ => false end.

Definition isAllocation (c : GLCall) : bool :=
  match c with
  | glGenTextures _ | glTexImage2D _ _ _ _ _ _ _ _ => true
  | _ => false
  end.

(** Calls that release attachments or textures. *)
Definition isRelease (c : GLCall) : bool :=
  match c with FBO_Detach _ | glDeleteTextures _ _ => true | _ => false end.

Fixpoint count (p : GLCall -> bool) (l : list GLCall) : nat :=
  match l with
  | [] => O
  | c :: l' => ((if p c then 1 else 0) + count p l')%nat
  end.

(** The attach calls of [Create], last slot first, for given arrays. *)
Definition attachCalls (ids atts : list Z) (n : nat) : list GLCall :=
  map (fun m => FBO_AttachTexture (default 0 (ids !! m)) GL_TEXTURE_2D
                                  (default 0 (atts !! m)))
      (rev (seq 0 n)).

(** The calls [Create] makes between the allocation loop and the status
    check, for the arrays the loop has filled. *)
Definition bindAndAttach (count : nat) (ids atts : list Z) : list GLCall :=
  FBO_Bind :: attachCalls ids atts count
    ++ [glBindTexture GL_TEXTURE_2D 0;
        glDrawBuffers (count - 1) (take (count - 1) atts)].
Arguments bindAndAttach : simpl never.

(** [Update] called once for each flag of a list, in order. *)
Fixpoint runUpdates {S} (update : bool -> M S bool) (inits : list bool)
  : M S unit :=
  match inits with
  | [] => ret tt
  | i :: rest => update i ;;; runUpdates update rest
  end.

(** The state and the return value of a computation that returned. *)
Definition state_of {S A} (o : Outcome S A) : option S :=
  match o with Returned _ s _ => Some s | AssertionFailed _ => None end.

Definition result_of {S A} (o : Outcome S A) : option A :=
  match o with Returned a _ _ => Some a | AssertionFailed _ => None end.

(** The attachment point [Create] records for slot [n]. *)
Definition slotAttachment (zvaltex n : nat) : Z :=
  if (n =? zvaltex)%nat then GL_DEPTH_ATTACHMENT
  else u32 (GL_COLOR_ATTACHMENT0 + Z.of_nat n).

(** Both arrays have their declared length. *)
Definition wellFormed {FBO} (count : nat) (s : GeometryBuffer FBO) : Prop :=
  length (bufferTextureIDs s) = count /\ length (bufferAttachments s) = count.

(** The calls of [DetachTextures] on an object that holds [ids]. *)
Definition detachCalls (count : nat) (ids : list Z) : list GLCall :=
  FBO_Bind ::
    map (fun j => FBO_Detach (u32 (GL_COLOR_ATTACHMENT0 + Z.of_nat j)))
        (seq 0 (count - 1))
    ++ [FBO_Detach GL_DEPTH_ATTACHMENT; FBO_Unbind;
        glDeleteTextures count ids].
Arguments detachCalls : simpl never.

(** The bind discipline of a run of calls, entered with the surface bound
    or not: the surface is bound only while unbound and unbound only while
    bound, and every call that acts on the bound framebuffer (detach,
    attach, status check, draw-buffer declaration) is made while it is
    bound.  The result is whether the surface is bound at the end, or
    [None] when the discipline is broken. *)
Fixpoint discipline (isBound : bool) (l : list GLCall) : option bool :=
  match l with
  | [] => Some isBound
  | FBO_Bind :: l' => if isBound then None else discipline true l'
  | FBO_Unbind :: l' => if isBound then discipline false l' else None
  | (FBO_Detach _ | FBO_AttachTexture _ _ _ | FBO_CheckStatus
     | glDrawBuffers _ _) :: l' =>
      if isBound then discipline isBound l' else None
  | _ :: l' => discipline isBound l'
  end.

(** Internal format, width and height of the images a log allocates. *)
Fixpoint images (l : list GLCall) : list (Z * Z * Z) :=
  match l with
  | [] => []
  | glTexImage2D _ _ fmt w h _ _ _ :: l' => (fmt, w, h) :: images l'
  | _ :: l' => images l'
  end.

(** The image [Create] allocates for slot [n]. *)
Definition slotImage (zvaltex : nat) (size : int2) (n : nat) : Z * Z * Z :=
  (if (n =? zvaltex)%nat then GL_DEPTH_COMPONENT32F else GL_RGBA,
   x size, y size).

(** The draw-buffer declarations, the detached attachment points, the
    deleted handle arrays and the attached (handle, point) pairs of a log. *)
Fixpoint drawBuffers (l : list GLCall) : list (nat * list Z) :=
  match l with
  | [] => []
  | glDrawBuffers n bufs :: l' => (n, bufs) :: drawBuffers l'
  | _ :: l' => drawBuffers l'
  end.

Fixpoint detached (l : list GLCall) : list Z :=
  match l with
  | [] => []
  | FBO_Detach a :: l' => a :: detached l'
  | _ :: l' => detached l'
  end.

Fixpoint deleted (l : list GLCall) : list (nat * list Z) :=
  match l with
  | [] => []
  | glDeleteTextures n ids :: l' => (n, ids) :: deleted l'
  | _ :: l' => deleted l'
  end.

Fixpoint attached (l : list GLCall) : list (Z * Z) :=
  match l with
  | [] => []
  | FBO_AttachTexture t _ a :: l' => (t, a) :: attached l'
  | _ :: l' => attached l'
  end.

(** The calls a user of the class makes, and a sequence of them run one
    after the other on one object ([Update]'s result is dropped). *)
Inductive Operation : Type :=
| DoInit (gr : CGlobalRendering) (ctor : bool)
| DoKill (dtor : bool)
| DoUpdate (gr : CGlobalRendering) (init : bool)
| DoClear
| DoSetDepthRange (nearDepth farDepth : spec_float).

Definition perform {FBO} (IsValid : FBO -> bool)
    (CheckStatus : list GLCall -> FBO -> bool * FBO)
    (genName : list GLCall -> Z) (count zvaltex : nat) (o : Operation)
  : M (GeometryBuffer FBO) unit :=
  match o with
  | DoInit gr ctor => Init count gr ctor
  | DoKill dtor => Kill IsValid count dtor
  | DoUpdate gr init =>
      Update IsValid CheckStatus genName count zvaltex gr init ;;; ret tt
  | DoClear => Clear
  | DoSetDepthRange n f => SetDepthRange n f
  end.

Fixpoint performAll {FBO} (IsValid : FBO -> bool)
    (CheckStatus : list GLCall -> FBO -> bool * FBO)
    (genName : list GLCall -> Z) (count zvaltex : nat) (ops : list Operation)
  : M (GeometryBuffer FBO) unit :=
  match ops with
  | [] => ret tt
  | o :: rest =>
      perform IsValid CheckStatus genName count zvaltex o ;;;
      performAll IsValid CheckStatus genName count zvaltex rest
  end.

(** ** A concrete driver and surface, for running the code

    Six slots, the depth slot last.  The surface object is a handle and a validity flag; the driver names
    textures by the position of the request in the log.  Two status checks:
    [strictCheck], under which a rejected check clears the validity flag (the
    behaviour the note in [Create] warns of), and [lenientCheck], under which
    validity is fixed at construction. *)
Module Concrete.
Record FBO : Type := mkFBO { fboId : Z; valid : bool }.

Definition IsValid (f : FBO) : bool := negb (fboId f =? 0) && valid f.

Definition strictCheck (verdict : bool) (_ : list GLCall) (f : FBO) : bool * FBO :=
  (verdict, mkFBO (fboId f) verdict).

Definition lenientCheck (verdict : bool) (_ : list GLCall) (f : FBO) : bool * FBO :=
  (verdict, f).

Definition genName (h : list GLCall) : Z := Z.of_nat (length h) + 1.

Definition COUNT : nat := 6.
Definition ZVALTEX : nat := 5.

Definition goodFBO : FBO := mkFBO 1 true.
Definition badFBO : FBO := mkFBO 0 false.

Definition gr800 : CGlobalRendering := mkGR 800 600.

(** A freshly constructed object: the fields as [Init] leaves them. *)
Definition fresh (f : FBO) : GeometryBuffer FBO :=
  mkGB (replicate COUNT 0) (replicate COUNT 0) (mkInt2 0 0) (mkInt2 800 600)
       false false f.

(** An object that holds six 800x600 images. *)
Definition populated (f : FBO) : GeometryBuffer FBO :=
  mkGB [11; 12; 13; 14; 15; 16]
       (map (slotAttachment ZVALTEX) (seq 0 COUNT))
       (mkInt2 800 600) (mkInt2 800 600) false false f.

Definition killed (f : FBO) : GeometryBuffer FBO :=
  mkGB (replicate COUNT 0) (replicate COUNT 0) (mkInt2 800 600) (mkInt2 800 600)
       true false f.

(** The object after its first [Update] at 800x600, the status check
  having answered [verdict]. *)
Definition realized (verdict : bool) : GeometryBuffer FBO :=
mkGB [1; 8; 15; 22; 29; 36]
     (map (slotAttachment ZVALTEX) (seq 0 COUNT))
     (mkInt2 800 600) (mkInt2 800 600) false false (mkFBO 1 verdict).

(** The member functions over this driver; [verdict] is what every status
  check answers. *)
Definition init := @Init FBO COUNT.
Definition kill := @Kill FBO IsValid COUNT.
Definition create (verdict : bool) :=
@Create FBO IsValid (strictCheck verdict) genName COUNT ZVALTEX.
Definition update (verdict : bool) :=
@Update FBO IsValid (strictCheck verdict) genName COUNT ZVALTEX.
Definition updateLenient (verdict : bool) :=
@Update FBO IsValid (lenientCheck verdict) genName COUNT ZVALTEX.
Definition createLenient (verdict : bool) :=
@Create FBO IsValid (lenientCheck verdict) genName COUNT ZVALTEX.

(** The calls of one [Create] at 800x600 from an empty log, and of one
  [DetachTextures] of the populated object. *)
Definition createLog : list GLCall :=
Eval vm_compute in
  calls_of (create true (mkInt2 800 600) (fresh goodFBO) []).
Definition killLog : list GLCall :=
Eval vm_compute in calls_of (kill false (populated goodFBO) []).

(** The populated object after an [Update] under a 1024x768 viewport, and
    the calls of that [Update]. *)
Definition resized : GeometryBuffer FBO :=
  Eval vm_compute in
    default (fresh badFBO)
      (state_of (update true (mkGR 1024 768) false (populated goodFBO) [])).
Definition resizeLog : list GLCall :=
  Eval vm_compute in
    calls_of (update true (mkGR 1024 768) false (populated goodFBO) []).
End Concrete.

(** * Properties *)

Section Properties.
Context {FBO : Type}.
Variable IsValid : FBO -> bool.
Variable CheckStatus : list GLCall -> FBO -> bool * FBO.
Variable genName : list GLCall -> Z.
Variables ATTACHMENT_COUNT ATTACHMENT_ZVALTEX : nat.

#[local] Abbreviation GB := (GeometryBuffer FBO).
#[local] Abbreviation tagOf := (slotAttachment ATTACHMENT_ZVALTEX).
#[local] Abbreviation init_ := (@Init FBO ATTACHMENT_COUNT).
#[local] Abbreviation kill_ := (@Kill FBO IsValid ATTACHMENT_COUNT).
#[local] Abbreviation detach_ := (@DetachTextures FBO ATTACHMENT_COUNT).
#[local] Abbreviation alloc_ := (@allocSlot FBO genName ATTACHMENT_ZVALTEX).
#[local] Abbreviation create_ :=
  (@Create FBO IsValid CheckStatus genName ATTACHMENT_COUNT ATTACHMENT_ZVALTEX).
#[local] Abbreviation update_ :=
  (@Update FBO IsValid CheckStatus genName ATTACHMENT_COUNT ATTACHMENT_ZVALTEX).
#[local] Abbreviation perform_ :=
  (@perform FBO IsValid CheckStatus genName ATTACHMENT_COUNT ATTACHMENT_ZVALTEX).
#[local] Abbreviation performAll_ :=
  (@performAll FBO IsValid CheckStatus genName ATTACHMENT_COUNT
     ATTACHMENT_ZVALTEX).

(** ** The call log *)

Lemma count_app p l1 l2 : count p (l1 ++ l2) = (count p l1 + count p l2)%nat.
Proof. induction l1 as [|c l1 IH]; simpl; [done | rewrite IH; lia]. Qed.

Lemma generated_app l1 l2 : generated (l1 ++ l2) = generated l1 ++ generated l2.
Proof.
  induction l1 as [|c l1 IH]; simpl; [done|].
  destruct c; simpl; rewrite ?IH; done.
Qed.

Lemma setup_not_release l :
  Forall (fun c => isTextureSetup c = true) l ->
  Forall (fun c => isRelease c = false) l.
Proof.
  intros H. eapply Forall_impl; [exact H|].
  intros []; simpl; congruence.
Qed.

(** ** The loops *)

Lemma set_set_ids (a b : list Z) (c d : list Z) (s : GB) :
  set_bufferAttachments a (set_bufferTextureIDs b
    (set_bufferAttachments c (set_bufferTextureIDs d s))) =
  set_bufferAttachments a (set_bufferTextureIDs b s).
Proof. by destruct s. Qed.

(** One round of the allocation loop. *)
Lemma allocSlot_run size n (s : GB) log :
  exists ev,
    alloc_ size n s log =
      Returned tt
        (set_bufferAttachments (<[n := tagOf n]> (bufferAttachments s))
           (set_bufferTextureIDs (<[n := genName log]> (bufferTextureIDs s)) s))
        (log ++ ev)
    /\ Forall (fun c => isTextureSetup c = true) ev
    /\ generated ev = [genName log]
    /\ count isTexImage ev = 1%nat.
Proof.
  unfold allocSlot, slotAttachment, bind, history, call, modify, get; simpl.
  destruct (n =? ATTACHMENT_ZVALTEX)%nat; simpl;
    rewrite <- !app_assoc; simpl;
    (eexists; split; [reflexivity|]);
    (split; [repeat constructor | split; reflexivity]).
Qed.

(** The allocation loop over slots [i .. i+k-1]: it always runs to its end,
    touches only the two arrays, makes texture set-up calls only, and
    allocates one image per slot. *)
Lemma allocLoop_run size k : forall i (s : GB) log,
  exists ev ids' atts',
    forUp i k (alloc_ size) s log =
      Returned tt (set_bufferAttachments atts' (set_bufferTextureIDs ids' s))
               (log ++ ev)
    /\ Forall (fun c => isTextureSetup c = true) ev
    /\ length (generated ev) = k
    /\ count isTexImage ev = k
    /\ ((i + k <= length (bufferTextureIDs s))%nat ->
        ids' = take i (bufferTextureIDs s) ++ generated ev
                 ++ drop (i + k) (bufferTextureIDs s))
    /\ ((i + k <= length (bufferAttachments s))%nat ->
        atts' = take i (bufferAttachments s) ++ map tagOf (seq i k)
                  ++ drop (i + k) (bufferAttachments s)).
Proof.
  induction k as [|k IH]; intros i s log.
  - exists [], (bufferTextureIDs s), (bufferAttachments s). simpl.
    rewrite app_nil_r, Nat.add_0_r, !take_drop. unfold ret.
    destruct s; simpl. repeat split; done.
  - destruct (allocSlot_run size i s log) as (ev1 & E1 & F1 & G1 & C1).
    set (s1 := set_bufferAttachments _ _) in E1.
    destruct (IH (S i) s1 (log ++ ev1)) as (ev2 & ids' & atts' & E2 & F2 & G2 & C2 & I2 & A2).
    exists (ev1 ++ ev2), ids', atts'.
    simpl. unfold bind at 1. rewrite E1, E2. unfold s1. rewrite set_set_ids, app_assoc.
    split; [done|]. split; [by apply Forall_app|].
    rewrite generated_app, count_app, length_app, G1, G2, C1, C2. simpl.
    split; [done|]. split; [done|]. split.
    + intros Hlen. rewrite I2 by (unfold s1; simpl; rewrite length_insert; lia).
      unfold s1; simpl.
      rewrite (take_S_r _ _ (genName log))
        by (apply list_lookup_insert_eq; lia).
      rewrite take_insert_ge by lia. rewrite drop_insert_lt by lia.
      rewrite <- !app_assoc. simpl. do 3 f_equal. f_equal. lia.
    + intros Hlen. rewrite A2 by (unfold s1; simpl; rewrite length_insert; lia).
      unfold s1; simpl.
      rewrite (take_S_r _ _ (tagOf i))
        by (apply list_lookup_insert_eq; lia).
      rewrite take_insert_ge by lia. rewrite drop_insert_lt by lia.
      rewrite <- !app_assoc. simpl. do 3 f_equal. f_equal. lia.
Qed.

(** The attach loop: one [AttachTexture] per slot, last slot first, each
    with the slot's handle and its recorded attachment point. *)
Lemma attachLoop_run n : forall (s : GB) log,
  forDown n attachSlot s log =
    Returned tt s
      (log ++ attachCalls (bufferTextureIDs s) (bufferAttachments s) n).
Proof.
  unfold attachCalls.
  induction n as [|n IH]; intros s log.
  - simpl. by rewrite app_nil_r.
  - rewrite seq_S, rev_app_distr. cbn [forDown].
    unfold bind at 1. unfold attachSlot at 1, bind, get, call, at_. rewrite IH.
    simpl. by rewrite <- app_assoc.
Qed.

(** The detach loop of [DetachTextures]. *)
Lemma detachLoop_run k : forall i (s : GB) log,
  forUp i k (fun j => call (FBO_Detach (u32 (GL_COLOR_ATTACHMENT0 + Z.of_nat j))))
        s log =
    Returned tt s
      (log ++ map (fun j => FBO_Detach (u32 (GL_COLOR_ATTACHMENT0 + Z.of_nat j)))
                  (seq i k)).
Proof.
  induction k as [|k IH]; intros i s log; simpl.
  - by rewrite app_nil_r.
  - unfold bind, call at 1. rewrite IH. by rewrite <- app_assoc.
Qed.

(** ** DetachTextures and Create, run *)

Lemma DetachTextures_init (s : GB) log :
  detach_ true s log = Returned tt s log.
Proof. reflexivity. Qed.

Lemma DetachTextures_run (s : GB) log :
  detach_ false s log =
    Returned tt
      (set_bufferAttachments (zeroed ATTACHMENT_COUNT)
         (set_bufferTextureIDs (zeroed ATTACHMENT_COUNT) s))
      (log ++ FBO_Bind ::
         map (fun j => FBO_Detach (u32 (GL_COLOR_ATTACHMENT0 + Z.of_nat j)))
             (seq 0 (ATTACHMENT_COUNT - 1))
         ++ [FBO_Detach GL_DEPTH_ATTACHMENT; FBO_Unbind;
             glDeleteTextures ATTACHMENT_COUNT (bufferTextureIDs s)]).
Proof.
  unfold DetachTextures. unfold bind at 1. unfold call at 1.
  unfold bind at 1. rewrite detachLoop_run.
  unfold bind, call, get, modify. simpl.
  by rewrite <- !app_assoc.
Qed.

(** [Create], run from any state: the allocation loop, then bind and attach,
    then the validity assertion, the status check and the unbind. *)
Lemma Create_run size (s : GB) log :
  exists allocs ids' atts',
    let s1 := set_bufferAttachments atts' (set_bufferTextureIDs ids' s) in
    let pre := log ++ allocs ++ bindAndAttach ATTACHMENT_COUNT ids' atts' in
    create_ size s log =
      (if IsValid (buffer s)
       then Returned (CheckStatus pre (buffer s)).1
                     (set_buffer (CheckStatus pre (buffer s)).2 s1)
                     (pre ++ [FBO_CheckStatus; FBO_Unbind])
       else AssertionFailed pre)
    /\ Forall (fun c => isTextureSetup c = true) allocs
    /\ length (generated allocs) = ATTACHMENT_COUNT
    /\ count isTexImage allocs = ATTACHMENT_COUNT
    /\ (wellFormed ATTACHMENT_COUNT s ->
        ids' = generated allocs /\ atts' = map tagOf (seq 0 ATTACHMENT_COUNT)).
Proof.
  destruct (allocLoop_run size ATTACHMENT_COUNT 0%nat s log)
    as (allocs & ids' & atts' & E & F & G & C & I & A).
  exists allocs, ids', atts'. cbv zeta.
  split; [|split; [done|split; [done|split; [done|]]]].
  - unfold Create. unfold bind at 1. rewrite E.
    unfold bind at 1. unfold call at 1.
    unfold bind at 1. rewrite attachLoop_run.
    unfold bind, call, get, assert, history, modify, ret, bindAndAttach. simpl.
    rewrite <- !app_assoc. simpl. rewrite <- !app_assoc. simpl.
    destruct (IsValid (buffer s)); [|reflexivity].
    destruct (CheckStatus _ (buffer s)) as [r b]. simpl.
    rewrite <- !app_assoc. simpl. rewrite <- !app_assoc. reflexivity.
  - intros [Hi Ha]. simpl in I, A.
    rewrite I, A by lia.
    rewrite !drop_ge by lia. by rewrite !app_nil_r.
Qed.

(** [Update], one level unfolded. *)
Lemma Update_unfold gr init (s : GB) log :
  update_ gr init s log =
    let w := GetWantedSize gr true in
    let s0 := set_currBufferSize w s in
    if negb (IsValid (buffer s)) then Returned false s0 log
    else if HasAttachments s then
      if int2_eqb (prevBufferSize s) w then Returned true s0 log
      else match detach_ init s0 log with
           | Returned _ s1 l1 => create_ w (set_prevBufferSize w s1) l1
           | AssertionFailed l1 => AssertionFailed l1
           end
    else create_ w (set_prevBufferSize w s0) log.
Proof.
  destruct s as [ids atts prev curr d b f].
  unfold Update, bind, modify, get, ret. simpl.
  destruct (IsValid f); simpl; [|reflexivity].
  unfold HasAttachments; simpl.
  destruct (existsb _ atts); [|reflexivity].
  destruct (int2_eqb _ _); [reflexivity|].
  destruct init; [reflexivity|].
  rewrite DetachTextures_run. reflexivity.
Qed.

Lemma int2_eqb_refl a : int2_eqb a a = true.
Proof. unfold int2_eqb. by rewrite !Z.eqb_refl. Qed.

(** After the allocation loop slot 0 carries a tag, so the buffer has
    attachments. *)
Lemma HasAttachments_tags (s : GB) :
  (0 < ATTACHMENT_COUNT)%nat ->
  bufferAttachments s = map tagOf (seq 0 ATTACHMENT_COUNT) ->
  HasAttachments s = true.
Proof.
  intros Hn E. unfold HasAttachments. rewrite E.
  destruct ATTACHMENT_COUNT as [|n]; [lia|]. simpl.
  unfold slotAttachment. destruct (0 =? ATTACHMENT_ZVALTEX)%nat; reflexivity.
Qed.

(** What [Create] leaves behind, whatever it returns: the fields it does
    not own are untouched, both arrays are filled, the log has grown by the
    calls of one allocate-bind-attach-check-unbind round. *)
Lemma Create_returned size (s : GB) log r s' log' :
  create_ size s log = Returned r s' log' ->
  IsValid (buffer s) = true
  /\ prevBufferSize s' = prevBufferSize s
  /\ currBufferSize s' = currBufferSize s
  /\ dead s' = dead s /\ bound s' = bound s
  /\ exists allocs,
       log' = log ++ allocs
                ++ bindAndAttach ATTACHMENT_COUNT (bufferTextureIDs s')
                                 (bufferAttachments s')
                ++ [FBO_CheckStatus; FBO_Unbind]
       /\ (r, buffer s') =
            CheckStatus (log ++ allocs
                           ++ bindAndAttach ATTACHMENT_COUNT (bufferTextureIDs s')
                                            (bufferAttachments s'))
                        (buffer s)
       /\ Forall (fun c => isTextureSetup c = true) allocs
       /\ length (generated allocs) = ATTACHMENT_COUNT
       /\ count isTexImage allocs = ATTACHMENT_COUNT
       /\ (wellFormed ATTACHMENT_COUNT s ->
           bufferTextureIDs s' = generated allocs
           /\ bufferAttachments s' = map tagOf (seq 0 ATTACHMENT_COUNT)).
Proof.
  destruct (Create_run size s log) as (allocs & ids' & atts' & E & F & G & C & W).
  cbv zeta in E. rewrite E.
  destruct (IsValid (buffer s)); [|discriminate].
  intros [= <- <- <-]. destruct s; simpl in *.
  repeat (split; [reflexivity|]).
  exists allocs. rewrite <- (app_assoc log), <- (app_assoc allocs).
  split; [reflexivity|]. split; [by destruct (CheckStatus _ _)|].
  repeat (split; [assumption|]). exact W.
Qed.

Lemma Create_failed size (s : GB) log :
  failed (create_ size s log) = negb (IsValid (buffer s)).
Proof.
  destruct (Create_run size s log) as (allocs & ids' & atts' & E & _).
  cbv zeta in E. rewrite E. by destruct (IsValid (buffer s)).
Qed.

Lemma Update_not_failed gr init (s : GB) log :
  failed (update_ gr init s log) = false.
Proof.
  rewrite Update_unfold. cbv zeta.
  destruct (IsValid (buffer s)) eqn:V; simpl; [|reflexivity].
  destruct (HasAttachments s); [destruct (int2_eqb _ _); [reflexivity|]|].
  - destruct init.
    + rewrite DetachTextures_init, Create_failed. simpl. by rewrite V.
    + rewrite DetachTextures_run, Create_failed. simpl. by rewrite V.
  - rewrite Create_failed. simpl. by rewrite V.
Qed.

(** An [Update] that finds attachments of the wanted size, or an invalid
    surface, makes no call and touches nothing but [currBufferSize]. *)
Lemma Update_settled gr init (s : GB) log :
  HasAttachments s = true ->
  prevBufferSize s = GetWantedSize gr true ->
  update_ gr init s log =
    Returned (IsValid (buffer s))
             (set_currBufferSize (GetWantedSize gr true) s) log.
Proof.
  intros H P. rewrite Update_unfold. cbv zeta.
  rewrite H, P, int2_eqb_refl. by destruct (IsValid (buffer s)).
Qed.

Lemma int2_eqb_eq a b : int2_eqb a b = true -> a = b.
Proof.
  destruct a, b. unfold int2_eqb. simpl.
  intros [->%Z.eqb_eq ->%Z.eqb_eq]%andb_true_iff. reflexivity.
Qed.

Lemma HasAttachments_zeroed (s : GB) :
  bufferAttachments s = zeroed ATTACHMENT_COUNT -> HasAttachments s = false.
Proof.
  intros E. unfold HasAttachments, zeroed in *. rewrite E. clear E.
  generalize ATTACHMENT_COUNT. intros n.
  induction n as [|n IH]; simpl; [reflexivity | exact IH].
Qed.

Lemma attachCalls_quiet ids atts n :
  generated (attachCalls ids atts n) = []
  /\ count isTexImage (attachCalls ids atts n) = O
  /\ Forall (fun c => isRelease c = false) (attachCalls ids atts n).
Proof.
  unfold attachCalls. induction (rev (seq 0 n)) as [|m l (G & C & R)]; simpl.
  - repeat split; constructor.
  - repeat split; [done | done | by constructor].
Qed.

(** Bind, attach, check and unbind allocate nothing and release nothing. *)
Lemma bindAndAttach_quiet n ids atts tl :
  Forall (fun c => isTextureSetup c = false /\ isRelease c = false) tl ->
  generated (bindAndAttach n ids atts ++ tl) = []
  /\ count isTexImage (bindAndAttach n ids atts ++ tl) = O
  /\ Forall (fun c => isRelease c = false) (bindAndAttach n ids atts ++ tl).
Proof.
  intros Htl. unfold bindAndAttach.
  destruct (attachCalls_quiet ids atts n) as (G & C & R).
  assert (generated tl = [] /\ count isTexImage tl = O
          /\ Forall (fun c => isRelease c = false) tl) as (G' & C' & R').
  { induction Htl as [|c tl [Hc Hr] _ (G' & C' & R')]; simpl.
    - repeat split; constructor.
    - destruct c; simpl in *; try discriminate;
        (repeat split; [done | done | by constructor]). }
  simpl. rewrite !generated_app, !count_app, G, C, G', C'. simpl.
  repeat split; try done.
  constructor; [done|]. repeat (apply Forall_app; split); try done.
  by repeat constructor.
Qed.

(** The calls of one [Create], summarised. *)
Lemma Create_calls size (s : GB) log r s' log' :
  create_ size s log = Returned r s' log' ->
  exists calls,
    log' = log ++ calls
    /\ count isTexImage calls = ATTACHMENT_COUNT
    /\ length (generated calls) = ATTACHMENT_COUNT
    /\ Forall (fun c => isRelease c = false) calls
    /\ (wellFormed ATTACHMENT_COUNT s ->
        bufferTextureIDs s' = generated calls
        /\ bufferAttachments s' = map tagOf (seq 0 ATTACHMENT_COUNT)).
Proof.
  intros E. apply Create_returned in E
    as (_ & _ & _ & _ & _ & allocs & -> & _ & F & G & C & W).
  eexists; split; [reflexivity|].
  destruct (bindAndAttach_quiet ATTACHMENT_COUNT (bufferTextureIDs s')
              (bufferAttachments s') [FBO_CheckStatus; FBO_Unbind])
    as (G' & C' & R'); [by repeat constructor|].
  rewrite generated_app, count_app, G', C', app_nil_r, Nat.add_0_r.
  repeat split; try done.
  - apply Forall_app; split; [by apply setup_not_release | done].
  - by apply W.
  - by apply W.
Qed.

(** What a returning [Update] leaves behind when the surface was valid. *)
Lemma Update_post gr init (s : GB) log r s' log' :
  wellFormed ATTACHMENT_COUNT s -> (0 < ATTACHMENT_COUNT)%nat ->
  IsValid (buffer s) = true ->
  update_ gr init s log = Returned r s' log' ->
  HasAttachments s' = true
  /\ prevBufferSize s' = GetWantedSize gr true
  /\ currBufferSize s' = GetWantedSize gr true.
Proof.
  intros Hwf Hn V. rewrite Update_unfold. cbv zeta. rewrite V. simpl negb. cbv iota.
  assert (forall s1 l1,
    wellFormed ATTACHMENT_COUNT s1 ->
    create_ (GetWantedSize gr true)
      (set_prevBufferSize (GetWantedSize gr true) s1) l1 = Returned r s' log' ->
    currBufferSize s1 = GetWantedSize gr true ->
    HasAttachments s' = true
    /\ prevBufferSize s' = GetWantedSize gr true
    /\ currBufferSize s' = GetWantedSize gr true) as viaCreate.
  { intros s1 l1 Hwf1 E Hc.
    pose proof (Create_returned _ _ _ _ _ _ E)
      as (_ & P & Cu & _ & _ & allocs & _ & _ & _ & _ & _ & W).
    destruct W as [_ Wa]; [by destruct s1|].
    split; [by apply HasAttachments_tags|]. split; [by rewrite P|].
    rewrite Cu. by destruct s1. }
  destruct (HasAttachments s) eqn:H.
  - destruct (int2_eqb _ _) eqn:Q.
    + intros [= <- <- <-]. apply int2_eqb_eq in Q.
      destruct s; simpl in *. split; [exact H|]. split; [exact Q | reflexivity].
    + destruct init.
      * rewrite DetachTextures_init. intros E.
        eapply viaCreate; [|exact E|]; by destruct s.
      * rewrite DetachTextures_run. intros E.
        eapply viaCreate; [|exact E|reflexivity].
        split; simpl; apply length_replicate.
  - intros E. eapply viaCreate; [|exact E|]; by destruct s.
Qed.

(** A returning [Init] leaves both arrays zeroed and the surface as it
    was. *)
Lemma Init_returned gr ctor (s0 : GB) log0 s log :
  init_ gr ctor s0 log0 = Returned tt s log ->
  bufferAttachments s = zeroed ATTACHMENT_COUNT
  /\ bufferTextureIDs s = zeroed ATTACHMENT_COUNT
  /\ buffer s = buffer s0 /\ dead s = false /\ log = log0.
Proof.
  unfold Init, bind, get, assert, modify.
  destruct (negb (dead s0) || negb ctor); [|discriminate].
  intros [= <- <-]. repeat split.
Qed.

(** ** The claims *)

(** C1 (amended).  [Init] fails its assertion exactly when the instance is
    dead and the call comes from construction ([ctor] set); a dead instance
    may be re-initialised only as a non-construction reload, and a live
    instance may always be re-initialised.  When the assertion holds the
    call clears both arrays, sets the last realised size to (0,0) and the
    desired size to the viewport, and marks the object alive and unbound. *)
Theorem Init_assertion gr ctor (s : GB) log :
  failed (init_ gr ctor s log) = dead s && ctor
  /\ init_ gr ctor s log =
       if dead s && ctor then AssertionFailed log
       else Returned tt
              (mkGB (zeroed ATTACHMENT_COUNT) (zeroed ATTACHMENT_COUNT)
                    (mkInt2 0 0) (mkInt2 (viewSizeX gr) (viewSizeY gr))
                    false false (buffer s))
              log.
Proof.
  unfold Init, bind, get, assert, modify. simpl.
  destruct (dead s), ctor; simpl; split; reflexivity.
Qed.

(** C3 (amended).  [GetWantedSize false] is (0,0) and [GetWantedSize true]
    is the viewport size, but [Update] always asks with [true]: after every
    call of [Update], whatever its flag, [currBufferSize] is the current
    viewport size. *)
Theorem Update_wanted_size gr init (s : GB) log :
  GetWantedSize gr false = mkInt2 0 0
  /\ GetWantedSize gr true = mkInt2 (viewSizeX gr) (viewSizeY gr)
  /\ exists r s' log',
       update_ gr init s log = Returned r s' log'
       /\ currBufferSize s' = mkInt2 (viewSizeX gr) (viewSizeY gr).
Proof.
  split; [reflexivity|]. split; [reflexivity|].
  pose proof (Update_not_failed gr init s log) as NF.
  destruct (update_ gr init s log) as [r s' log'|] eqn:E; [|discriminate].
  exists r, s', log'. split; [reflexivity|].
  revert E. rewrite Update_unfold. cbv zeta.
  assert (forall s1 l1,
    create_ (GetWantedSize gr true)
      (set_prevBufferSize (GetWantedSize gr true) s1) l1 = Returned r s' log' ->
    currBufferSize s1 = GetWantedSize gr true ->
    currBufferSize s' = GetWantedSize gr true) as viaCreate.
  { intros s1 l1 E Hc.
    apply Create_returned in E as (_ & _ & Cu & _). rewrite Cu. by destruct s1. }
  destruct (IsValid (buffer s)); simpl negb; cbv iota.
  - destruct (HasAttachments s); [destruct (int2_eqb _ _)|].
    + intros [= <- <- <-]. by destruct s.
    + destruct init; [rewrite DetachTextures_init|rewrite DetachTextures_run];
        intros E; eapply viaCreate; try exact E; by destruct s.
    + intros E; eapply viaCreate; try exact E; by destruct s.
  - intros [= <- <- <-]. by destruct s.
Qed.

(** C4 (amended).  When the surface is not valid, [Update] makes no call at
    all (no allocation, no detachment), stores the wanted size in
    [currBufferSize], and returns [false] as an ordinary result; no
    assertion is involved. *)
Theorem Update_invalid_surface gr init (s : GB) log :
  IsValid (buffer s) = false ->
  update_ gr init s log =
    Returned false (set_currBufferSize (GetWantedSize gr true) s) log.
Proof. intros V. rewrite Update_unfold. cbv zeta. by rewrite V. Qed.


(** C5.  The first [Update] after [Init], on a valid surface, is a call of
    [Create] with the wanted size: it never takes the size-unchanged
    return, whatever the viewport was or is, and allocates one image per
    slot. *)
Theorem first_Update_after_Init gr0 ctor (s0 : GB) log0 s log gr init :
  init_ gr0 ctor s0 log0 = Returned tt s log ->
  IsValid (buffer s) = true ->
  update_ gr init s log =
    create_ (GetWantedSize gr true)
      (set_prevBufferSize (GetWantedSize gr true)
         (set_currBufferSize (GetWantedSize gr true) s)) log
  /\ exists r s' calls,
       update_ gr init s log = Returned r s' (log ++ calls)
       /\ count isTexImage calls = ATTACHMENT_COUNT
       /\ length (generated calls) = ATTACHMENT_COUNT
       /\ prevBufferSize s' = GetWantedSize gr true.
Proof.
  intros I V.
  apply Init_returned in I as (A & _).
  assert (update_ gr init s log =
          create_ (GetWantedSize gr true)
            (set_prevBufferSize (GetWantedSize gr true)
               (set_currBufferSize (GetWantedSize gr true) s)) log) as U.
  { rewrite Update_unfold. cbv zeta. rewrite V.
    by rewrite (HasAttachments_zeroed s A). }
  split; [exact U|]. rewrite U.
  pose proof (Create_failed (GetWantedSize gr true)
    (set_prevBufferSize (GetWantedSize gr true)
       (set_currBufferSize (GetWantedSize gr true) s)) log) as NF.
  simpl buffer in NF. rewrite V in NF.
  destruct (create_ _ _ _) as [r s' log'|] eqn:C; [|discriminate].
  pose proof (Create_returned _ _ _ _ _ _ C) as (_ & P & _).
  apply Create_calls in C as (calls & -> & Ci & G & _).
  by exists r, s', calls.
Qed.

(** C6 (amended).  Of two consecutive calls of [Update] under one viewport,
    the surface being valid when the first is made, the second makes no
    call and leaves the object as the first left it (handles, tags and
    both sizes).  It returns [true] if the surface is still valid, and
    [false] if the status check of the first call has invalidated it. *)
Theorem Update_twice_settles gr i1 i2 (s : GB) log r1 s1 log1 :
  wellFormed ATTACHMENT_COUNT s -> (0 < ATTACHMENT_COUNT)%nat ->
  IsValid (buffer s) = true ->
  update_ gr i1 s log = Returned r1 s1 log1 ->
  update_ gr i2 s1 log1 = Returned (IsValid (buffer s1)) s1 log1
  /\ (IsValid (buffer s1) = true ->
      update_ gr i2 s1 log1 = Returned true s1 log1).
Proof.
  intros Hwf Hn V U.
  destruct (Update_post _ _ _ _ _ _ _ Hwf Hn V U) as (H & P & C).
  assert (update_ gr i2 s1 log1 = Returned (IsValid (buffer s1)) s1 log1) as E.
  { rewrite Update_settled by done.
    f_equal. destruct s1; simpl in *. by rewrite C. }
  split; [exact E|]. intros V1. by rewrite E, V1.
Qed.

(** C7.  When [Update] takes the recreation path (valid surface, and no
    attachments or a changed size), then whatever [Create] returns,
    [prevBufferSize] becomes the wanted size; and under the same viewport
    no later sequence of [Update] calls makes a single call or changes the
    object: the allocation is not tried again. *)
Theorem recreation_not_retried gr init (s : GB) log r s' log' :
  wellFormed ATTACHMENT_COUNT s -> (0 < ATTACHMENT_COUNT)%nat ->
  IsValid (buffer s) = true ->
  HasAttachments s = false
    \/ int2_eqb (prevBufferSize s) (GetWantedSize gr true) = false ->
  update_ gr init s log = Returned r s' log' ->
  prevBufferSize s' = GetWantedSize gr true
  /\ currBufferSize s' = GetWantedSize gr true
  /\ (exists calls, log' = log ++ calls
                    /\ count isTexImage calls = ATTACHMENT_COUNT)
  /\ forall inits, runUpdates (update_ gr) inits s' log' = Returned tt s' log'.
Proof.
  intros Hwf Hn V Path U.
  destruct (Update_post _ _ _ _ _ _ _ Hwf Hn V U) as (H & P & C).
  split; [exact P|]. split; [exact C|]. split.
  - revert U. rewrite Update_unfold. cbv zeta. rewrite V. simpl negb. cbv iota.
    assert (HasAttachments s = true ->
            int2_eqb (prevBufferSize s) (GetWantedSize gr true) = false) as Q.
    { intros Ha. destruct Path as [F|F]; [congruence | exact F]. }
    destruct (HasAttachments s).
    + rewrite Q by reflexivity. destruct init.
      * rewrite DetachTextures_init. intros E.
        apply Create_calls in E as (calls & -> & Ci & _). by exists calls.
      * rewrite DetachTextures_run. intros E.
        apply Create_calls in E as (calls & -> & Ci & _).
        eexists. rewrite <- app_assoc. split; [reflexivity|].
        rewrite count_app, Ci. simpl. rewrite count_app.
        replace (count isTexImage (map _ _)) with O; [reflexivity|].
        induction (seq 0 _); simpl; done.
    + intros E. apply Create_calls in E as (calls & -> & Ci & _). by exists calls.
  - intros inits. induction inits as [|i inits IH]; [reflexivity|].
    simpl. unfold bind. rewrite Update_settled by done.
    replace (set_currBufferSize (GetWantedSize gr true) s') with s'
      by (destruct s'; simpl in *; by rewrite C).
    exact IH.
Qed.

(** C8.  Every run of [Create] on well-formed arrays makes its calls in this
    order: first the texture set-up calls of all slots, among them one
    image allocation per slot and no FBO call; then the bind; then one
    attach per slot, of the slot's handle to the slot's recorded
    attachment point; then the draw-buffer declaration.  The run returns
    exactly when the surface is valid, and then its last two calls are the
    status check and the unbind. *)
Theorem Create_call_order size (s : GB) log :
  wellFormed ATTACHMENT_COUNT s ->
  exists allocs,
    let ids' := generated allocs in
    let atts' := map tagOf (seq 0 ATTACHMENT_COUNT) in
    calls_of (create_ size s log) =
      log ++ allocs
          ++ FBO_Bind :: attachCalls ids' atts' ATTACHMENT_COUNT
          ++ [glBindTexture GL_TEXTURE_2D 0;
              glDrawBuffers (ATTACHMENT_COUNT - 1)
                            (take (ATTACHMENT_COUNT - 1) atts')]
          ++ (if IsValid (buffer s) then [FBO_CheckStatus; FBO_Unbind] else [])
    /\ Forall (fun c => isTextureSetup c = true) allocs
    /\ count isTexImage allocs = ATTACHMENT_COUNT
    /\ length ids' = ATTACHMENT_COUNT
    /\ count isAllocation (attachCalls ids' atts' ATTACHMENT_COUNT) = O
    /\ failed (create_ size s log) = negb (IsValid (buffer s))
    /\ forall r s' log',
         create_ size s log = Returned r s' log' ->
         bufferTextureIDs s' = ids' /\ bufferAttachments s' = atts'
         /\ last log' = Some FBO_Unbind.
Proof.
  intros Hwf.
  destruct (Create_run size s log) as (allocs & ids' & atts' & E & F & G & C & W).
  destruct (W Hwf) as [-> ->]. cbv zeta in E.
  exists allocs. cbv zeta.
  split; [|split; [exact F|split; [exact C|split; [exact G|split; [|split]]]]].
  - rewrite E. unfold bindAndAttach.
    destruct (IsValid (buffer s)); simpl.
    + rewrite <- !app_assoc. simpl. by rewrite <- !app_assoc.
    + reflexivity.
  - unfold attachCalls. induction (rev (seq 0 _)); simpl; done.
  - apply Create_failed.
  - intros r s' log'. rewrite E.
    destruct (IsValid (buffer s)); [|discriminate].
    intros [= <- <- <-]. destruct s; simpl.
    split; [reflexivity|]. split; [reflexivity|].
    by rewrite last_app.
Qed.

(** C9 (amended).  When [Create] returns [false], every slot's handle and
    tag has been written all the same and [HasAttachments] holds; the next
    [Update] under an unchanged wanted size makes no call, and returns
    [true] if the surface still reports valid and [false] if the failed
    status check has invalidated it. *)
Theorem failed_Create_then_Update size (s : GB) log s' log' gr init :
  wellFormed ATTACHMENT_COUNT s -> (0 < ATTACHMENT_COUNT)%nat ->
  create_ size s log = Returned false s' log' ->
  prevBufferSize s' = GetWantedSize gr true ->
  (exists calls, log' = log ++ calls
                 /\ bufferTextureIDs s' = generated calls
                 /\ length (generated calls) = ATTACHMENT_COUNT)
  /\ bufferAttachments s' = map tagOf (seq 0 ATTACHMENT_COUNT)
  /\ HasAttachments s' = true
  /\ update_ gr init s' log' =
       Returned (IsValid (buffer s'))
                (set_currBufferSize (GetWantedSize gr true) s') log'.
Proof.
  intros Hwf Hn C P.
  apply Create_calls in C as (calls & -> & _ & G & _ & W).
  destruct (W Hwf) as [I A].
  assert (HasAttachments s' = true) as H by by apply HasAttachments_tags.
  split; [by exists calls|]. split; [exact A|]. split; [exact H|].
  by apply Update_settled.
Qed.


(** ** Further properties of the code *)

Lemma discipline_app b l1 l2 :
  discipline b (l1 ++ l2) =
    match discipline b l1 with
    | Some b' => discipline b' l2
    | None => None
    end.
Proof.
  revert b. induction l1 as [|c l1 IH]; intros b; [reflexivity|].
  destruct c, b; simpl; auto.
Qed.

Lemma discipline_setup b l :
  Forall (fun c => isTextureSetup c = true) l -> discipline b l = Some b.
Proof.
  induction 1 as [|c l Hc _ IH]; [reflexivity|].
  destruct c; simpl in *; try discriminate; exact IH.
Qed.

Lemma discipline_attachCalls ids atts n :
  discipline true (attachCalls ids atts n) = Some true.
Proof. unfold attachCalls. induction (rev (seq 0 n)); simpl; done. Qed.

Lemma discipline_bindAndAttach n ids atts :
  discipline false (bindAndAttach n ids atts ++ [FBO_CheckStatus; FBO_Unbind])
  = Some false.
Proof.
  unfold bindAndAttach. simpl.
  rewrite <- app_assoc, discipline_app, discipline_attachCalls. reflexivity.
Qed.

Lemma discipline_detachCalls n ids :
  discipline false (detachCalls n ids) = Some false.
Proof.
  unfold detachCalls. simpl. rewrite discipline_app.
  replace (discipline true (map _ _)) with (Some true); [reflexivity|].
  induction (seq 0 _); simpl; done.
Qed.

Lemma DetachTextures_calls (s : GB) log :
  detach_ false s log =
    Returned tt
      (set_bufferAttachments (zeroed ATTACHMENT_COUNT)
         (set_bufferTextureIDs (zeroed ATTACHMENT_COUNT) s))
      (log ++ detachCalls ATTACHMENT_COUNT (bufferTextureIDs s)).
Proof. apply DetachTextures_run. Qed.

(** The recreation path of [Update], run: an optional release block, then
    the calls of [Create]. *)
Lemma Update_recreate_run gr init (s : GB) log r s' log' :
  IsValid (buffer s) = true ->
  HasAttachments s = false
    \/ int2_eqb (prevBufferSize s) (GetWantedSize gr true) = false ->
  update_ gr init s log = Returned r s' log' ->
  exists allocs,
    let pre := if HasAttachments s && negb init
               then detachCalls ATTACHMENT_COUNT (bufferTextureIDs s) else [] in
    let body := allocs ++ bindAndAttach ATTACHMENT_COUNT (bufferTextureIDs s')
                                        (bufferAttachments s') in
    log' = log ++ pre ++ body ++ [FBO_CheckStatus; FBO_Unbind]
    /\ (r, buffer s') = CheckStatus (log ++ pre ++ body) (buffer s)
    /\ Forall (fun c => isTextureSetup c = true) allocs
    /\ length (generated allocs) = ATTACHMENT_COUNT
    /\ count isTexImage allocs = ATTACHMENT_COUNT
    /\ dead s' = dead s /\ bound s' = bound s
    /\ (wellFormed ATTACHMENT_COUNT s ->
        bufferTextureIDs s' = generated allocs
        /\ bufferAttachments s' = map tagOf (seq 0 ATTACHMENT_COUNT)).
Proof.
  intros V Path. rewrite Update_unfold. cbv zeta. rewrite V. simpl negb. cbv iota.
  assert (forall s1 pre,
    dead s1 = dead s -> bound s1 = bound s -> buffer s1 = buffer s ->
    (wellFormed ATTACHMENT_COUNT s -> wellFormed ATTACHMENT_COUNT s1) ->
    create_ (GetWantedSize gr true)
      (set_prevBufferSize (GetWantedSize gr true) s1) (log ++ pre)
      = Returned r s' log' ->
    exists allocs,
      let body := allocs ++ bindAndAttach ATTACHMENT_COUNT (bufferTextureIDs s')
                                          (bufferAttachments s') in
      log' = log ++ pre ++ body ++ [FBO_CheckStatus; FBO_Unbind]
      /\ (r, buffer s') = CheckStatus (log ++ pre ++ body) (buffer s)
      /\ Forall (fun c => isTextureSetup c = true) allocs
      /\ length (generated allocs) = ATTACHMENT_COUNT
      /\ count isTexImage allocs = ATTACHMENT_COUNT
      /\ dead s' = dead s /\ bound s' = bound s
      /\ (wellFormed ATTACHMENT_COUNT s ->
          bufferTextureIDs s' = generated allocs
          /\ bufferAttachments s' = map tagOf (seq 0 ATTACHMENT_COUNT)))
    as viaCreate.
  { intros s1 pre Hd Hb Hf Hw E.
    apply Create_returned in E
      as (_ & _ & _ & D & B & allocs & -> & C & F & G & Ci & W).
    exists allocs. cbv zeta. simpl in D, B, C.
    rewrite <- !app_assoc in *. rewrite Hf in C.
    split; [reflexivity|]. split; [exact C|].
    repeat (split; [first [assumption | congruence]|]).
    intros Hwf. apply W. destruct (Hw Hwf). by destruct s1. }
  destruct (HasAttachments s) eqn:H.
  - destruct Path as [?|Q]; [discriminate|]. rewrite Q. destruct init.
    + rewrite DetachTextures_init. intros E.
      rewrite <- (app_nil_r log) in E.
      apply viaCreate in E; [exact E|by destruct s..].
    + rewrite DetachTextures_calls. intros E.
      apply viaCreate in E; [exact E|try done..].
      intros _. split; apply length_replicate.
  - intros E. rewrite <- (app_nil_r log) in E.
    apply viaCreate in E; [exact E|by destruct s..].
Qed.

(** The two ways of [Update]: it settles without a call, or it recreates. *)
Lemma Update_settle_run gr init (s : GB) log :
  IsValid (buffer s) = false
    \/ (HasAttachments s = true
        /\ int2_eqb (prevBufferSize s) (GetWantedSize gr true) = true) ->
  update_ gr init s log =
    Returned (IsValid (buffer s))
             (set_currBufferSize (GetWantedSize gr true) s) log.
Proof.
  intros [V|[H Q]]; rewrite Update_unfold; cbv zeta.
  - by rewrite V.
  - rewrite H, Q. by destruct (IsValid (buffer s)).
Qed.

Lemma Update_ways gr (s : GB) :
  (IsValid (buffer s) = false
   \/ (HasAttachments s = true
       /\ int2_eqb (prevBufferSize s) (GetWantedSize gr true) = true))
  \/ (IsValid (buffer s) = true
      /\ (HasAttachments s = false
          \/ int2_eqb (prevBufferSize s) (GetWantedSize gr true) = false)).
Proof.
  destruct (IsValid (buffer s)), (HasAttachments s),
    (int2_eqb (prevBufferSize s) (GetWantedSize gr true)); auto.
Qed.

Lemma Update_returns gr init (s : GB) log :
  exists r s' log', update_ gr init s log = Returned r s' log'.
Proof.
  pose proof (Update_not_failed gr init s log) as NF.
  destruct (update_ gr init s log) as [r s' log'|]; [eauto | discriminate].
Qed.

Lemma app_eq_self_nil (l k : list GLCall) : l ++ k = l -> k = [].
Proof.
  intros E. apply (f_equal length) in E. rewrite length_app in E.
  destruct k; [reflexivity | simpl in E; lia].
Qed.

Lemma bindAndAttach_cons n ids atts tl :
  exists rest, bindAndAttach n ids atts ++ tl = FBO_Bind :: rest.
Proof. unfold bindAndAttach. simpl. eauto. Qed.

Lemma recreate_log_grows (log pre allocs tl : list GLCall) n ids atts :
  log ++ pre ++ (allocs ++ bindAndAttach n ids atts) ++ tl <> log.
Proof.
  intros E. apply app_eq_self_nil in E.
  apply app_eq_nil in E as [_ E].
  rewrite <- app_assoc in E. apply app_eq_nil in E as [_ E].
  destruct (bindAndAttach_cons n ids atts tl) as (rest & R).
  rewrite R in E. discriminate.
Qed.

(** The calls of one [Update] and of one [Kill] keep the bind discipline. *)
Lemma Update_Kill_discipline gr init dtor (s : GB) log :
  (exists r s' calls,
     update_ gr init s log = Returned r s' (log ++ calls)
     /\ discipline false calls = Some false)
  /\ (exists calls,
        calls_of (kill_ dtor s log) = log ++ calls
        /\ discipline false calls = Some false).
Proof.
  split.
  - destruct (Update_ways gr s) as [Q|[V Path]].
    + exists (IsValid (buffer s)), (set_currBufferSize (GetWantedSize gr true) s), [].
      rewrite app_nil_r. split; [by apply Update_settle_run | reflexivity].
    + destruct (Update_returns gr init s log) as (r & s' & log' & U).
      destruct (Update_recreate_run _ _ _ _ _ _ _ V Path U)
        as (allocs & E & _ & F & _).
      cbv zeta in E. subst log'. exists r, s'. eexists. split; [exact U|].
      rewrite discipline_app.
      assert (discipline false
                (if HasAttachments s && negb init
                 then detachCalls ATTACHMENT_COUNT (bufferTextureIDs s) else [])
              = Some false) as ->.
      { destruct (_ && _); [apply discipline_detachCalls | reflexivity]. }
      rewrite <- app_assoc, discipline_app, (discipline_setup _ _ F).
      apply discipline_bindAndAttach.
  - unfold Kill, bind, get, assert, modify, ret.
    destruct (dead s).
    + exists []. rewrite app_nil_r. by destruct dtor.
    + destruct (IsValid (buffer s)).
      * rewrite DetachTextures_calls. eexists. split; [reflexivity|].
        apply discipline_detachCalls.
      * exists []. by rewrite app_nil_r.
Qed.

(** X1.  [Update] makes no call at all exactly when the surface is not
    valid, or the object has attachments and the last realised size is the
    viewport size; in every other case it makes calls. *)
Theorem Update_idle_iff gr init (s : GB) log :
  calls_of (update_ gr init s log) = log <->
  (IsValid (buffer s) = false
   \/ (HasAttachments s = true
       /\ int2_eqb (prevBufferSize s) (GetWantedSize gr true) = true)).
Proof.
  split.
  - intros Idle. destruct (Update_ways gr s) as [Q|[V Path]]; [exact Q|].
    destruct (Update_returns gr init s log) as (r & s' & log' & U).
    rewrite U in Idle. simpl in Idle. subst log'.
    destruct (Update_recreate_run _ _ _ _ _ _ _ V Path U) as (allocs & E & _).
    cbv zeta in E. symmetry in E. by apply recreate_log_grows in E.
  - intros Q. by rewrite Update_settle_run.
Qed.

(** X2.  What [Update] returns.  When it made no call, it returns whether
    the surface is valid and leaves the surface object alone.  When it made
    calls, it returns the verdict of the status check, asked after every
    call but the check itself and the unbind, and the surface object is
    the one the check left. *)
Theorem Update_result gr init (s : GB) log r s' log' :
  update_ gr init s log = Returned r s' log' ->
  (log' = log -> r = IsValid (buffer s) /\ buffer s' = buffer s)
  /\ (log' <> log ->
      (r, buffer s') = CheckStatus (take (length log' - 2) log') (buffer s)).
Proof.
  intros U. destruct (Update_ways gr s) as [Q|[V Path]].
  - rewrite (Update_settle_run _ _ _ _ Q) in U. injection U as <- <- <-.
    split; [by destruct s | congruence].
  - destruct (Update_recreate_run _ _ _ _ _ _ _ V Path U)
      as (allocs & E & C & _).
    cbv zeta in E, C. split.
    + intros Idle. exfalso.
      rewrite Idle in E. symmetry in E. by apply recreate_log_grows in E.
    + intros _. rewrite C. f_equal. rewrite E.
      rewrite !app_assoc. rewrite length_app. simpl.
      rewrite Nat.add_sub. by rewrite take_app_length.
Qed.

(** [Init] leaves both arrays with their declared length; [Update] and
    [Kill] keep that length, and [Update] changes neither the dead flag nor
    the bound flag. *)
Lemma lengths_and_flags_kept gr b (s : GB) log s' log' :
  (init_ gr b s log = Returned tt s' log' ->
     wellFormed ATTACHMENT_COUNT s')
  /\ (wellFormed ATTACHMENT_COUNT s ->
      (kill_ b s log = Returned tt s' log' -> wellFormed ATTACHMENT_COUNT s')
      /\ (forall r, update_ gr b s log = Returned r s' log' ->
            wellFormed ATTACHMENT_COUNT s'
            /\ dead s' = dead s /\ bound s' = bound s)).
Proof.
  split; [|intros Hwf; split].
  - intros I. apply Init_returned in I as (A & T & _).
    split; [rewrite T | rewrite A]; apply length_replicate.
  - unfold Kill, bind, get, assert, modify, ret.
    destruct (dead s).
    + destruct b; [|discriminate]. by intros [= <- <-].
    + destruct (IsValid (buffer s)).
      * rewrite DetachTextures_calls. intros [= <- <-].
        split; apply length_replicate.
      * intros [= <- <-]. exact Hwf.
  - intros r U. destruct (Update_ways gr s) as [Q|[V Path]].
    + rewrite (Update_settle_run _ _ _ _ Q) in U. injection U as <- <- <-.
      by destruct s.
    + destruct (Update_recreate_run _ _ _ _ _ _ _ V Path U)
        as (allocs & _ & _ & _ & G & _ & D & B & W).
      destruct (W Hwf) as [I A].
      split; [|by split]. split; [by rewrite I|].
      rewrite A. by rewrite length_map, length_seq.
Qed.

(** One operation: it keeps the array lengths ([Init] sets them), and the
    calls it makes, also when it stops at an assertion, keep the bind
    discipline. *)
Lemma perform_step o (s : GB) log :
  (forall s' log', perform_ o s log = Returned tt s' log' ->
     (wellFormed ATTACHMENT_COUNT s
      \/ exists gr ctor, o = DoInit gr ctor) ->
     wellFormed ATTACHMENT_COUNT s')
  /\ exists calls,
       calls_of (perform_ o s log) = log ++ calls
       /\ discipline false calls = Some false.
Proof.
  destruct o as [gr ctor|dtor|gr init| |n f]; simpl.
  - split.
    + intros s' log' I _.
      exact (proj1 (lengths_and_flags_kept gr ctor s log s' log') I).
    + exists []. rewrite app_nil_r. split; [|reflexivity].
      unfold Init, bind, get, assert, modify.
      by destruct (negb (dead s) || negb ctor).
  - split.
    + intros s' log' K [Hwf|(? & ? & ?)]; [|discriminate].
      exact (proj1 (proj2 (lengths_and_flags_kept (mkGR 0 0) dtor s log s' log')
                      Hwf) K).
    + apply (Update_Kill_discipline (mkGR 0 0) false dtor s log).
  - destruct (Update_Kill_discipline gr init false s log)
      as [(r & s1 & calls & U & D) _].
    unfold bind, ret. rewrite U. split.
    + intros s' log' [= <- <-] [Hwf|(? & ? & ?)]; [|discriminate].
      exact (proj1 (proj2 (proj2 (lengths_and_flags_kept gr init s log s1
                                    (log ++ calls)) Hwf) r U)).
    + by exists calls.
  - split.
    + unfold Clear, bind, get, assert, call.
      destruct (bound s); [|discriminate].
      intros s' log' [= <- <-] [Hwf|(? & ? & ?)]; [exact Hwf | discriminate].
    + unfold Clear, bind, get, assert, call.
      destruct (bound s); simpl.
      * eexists. rewrite <- app_assoc. split; reflexivity.
      * exists []. by rewrite app_nil_r.
  - split.
    + unfold SetDepthRange, bind, call.
      intros s' log' [= <- <-] [Hwf|(? & ? & ?)]; [exact Hwf | discriminate].
    + unfold SetDepthRange, bind, call. simpl.
      eexists. rewrite <- app_assoc. split; reflexivity.
Qed.

(** X4.  No sequence of [Init], [Kill], [Update], [Clear] and
    [SetDepthRange] calls, whether it runs to its end or stops at an
    assertion, breaks the bind discipline: entered with the surface
    unbound, every detach, attach, status check and draw-buffer declaration
    is made between a bind and its unbind, binds do not nest, and the
    surface is unbound at the end. *)
Theorem surface_never_left_bound ops (s : GB) log :
  exists calls,
    calls_of (performAll_ ops s log) = log ++ calls
    /\ discipline false calls = Some false.
Proof.
  revert s log. induction ops as [|o ops IH]; intros s log.
  - exists []. by rewrite app_nil_r.
  - simpl. unfold bind at 1.
    destruct (perform_step o s log) as [_ (c1 & E1 & D1)].
    destruct (perform_ o s log) as [[] s1 log1|l1] eqn:P; simpl in E1; subst.
    + destruct (IH s1 (log ++ c1)) as (c2 & E2 & D2).
      exists (c1 ++ c2). rewrite E2, app_assoc. split; [reflexivity|].
      by rewrite discipline_app, D1.
    + by exists c1.
Qed.

(** ** What the calls carry *)

Lemma images_app l1 l2 : images (l1 ++ l2) = images l1 ++ images l2.
Proof.
  induction l1 as [|c l1 IH]; [reflexivity|].
  destruct c; simpl; rewrite ?IH; reflexivity.
Qed.

Lemma drawBuffers_app l1 l2 :
  drawBuffers (l1 ++ l2) = drawBuffers l1 ++ drawBuffers l2.
Proof.
  induction l1 as [|c l1 IH]; [reflexivity|].
  destruct c; simpl; rewrite ?IH; reflexivity.
Qed.

Lemma detached_app l1 l2 : detached (l1 ++ l2) = detached l1 ++ detached l2.
Proof.
  induction l1 as [|c l1 IH]; [reflexivity|].
  destruct c; simpl; rewrite ?IH; reflexivity.
Qed.

Lemma deleted_app l1 l2 : deleted (l1 ++ l2) = deleted l1 ++ deleted l2.
Proof.
  induction l1 as [|c l1 IH]; [reflexivity|].
  destruct c; simpl; rewrite ?IH; reflexivity.
Qed.

Lemma attached_app l1 l2 : attached (l1 ++ l2) = attached l1 ++ attached l2.
Proof.
  induction l1 as [|c l1 IH]; [reflexivity|].
  destruct c; simpl; rewrite ?IH; reflexivity.
Qed.

(** Texture set-up calls touch no framebuffer. *)
Lemma setup_carries_nothing l :
  Forall (fun c => isTextureSetup c = true) l ->
  drawBuffers l = [] /\ detached l = [] /\ deleted l = [] /\ attached l = [].
Proof.
  induction 1 as [|c l Hc _ (A & B & C & D)]; [done|].
  destruct c; simpl in *; try discriminate; done.
Qed.

Lemma attachCalls_carry ids atts n :
  images (attachCalls ids atts n) = []
  /\ drawBuffers (attachCalls ids atts n) = []
  /\ detached (attachCalls ids atts n) = []
  /\ deleted (attachCalls ids atts n) = []
  /\ attached (attachCalls ids atts n) =
       map (fun m => (default 0 (ids !! m), default 0 (atts !! m)))
           (rev (seq 0 n)).
Proof.
  unfold attachCalls. induction (rev (seq 0 n)) as [|m l (A & B & C & D & E)];
    simpl; [done|]. by rewrite E.
Qed.

Lemma detachCalls_carry n ids :
  images (detachCalls n ids) = []
  /\ generated (detachCalls n ids) = []
  /\ drawBuffers (detachCalls n ids) = []
  /\ attached (detachCalls n ids) = []
  /\ deleted (detachCalls n ids) = [(n, ids)]
  /\ detached (detachCalls n ids) =
       map (fun j => u32 (GL_COLOR_ATTACHMENT0 + Z.of_nat j)) (seq 0 (n - 1))
         ++ [GL_DEPTH_ATTACHMENT].
Proof.
  unfold detachCalls. simpl.
  rewrite images_app, generated_app, drawBuffers_app, attached_app,
    deleted_app, detached_app. simpl.
  induction (seq 0 (n - 1)) as [|j l (A & B & C & D & E & F)]; simpl; [done|].
  rewrite A, B, C, D, E. simpl in F. by rewrite F.
Qed.

(** One round of the allocation loop allocates the slot's image. *)
Lemma allocSlot_images size n (s : GB) log :
  exists ev s',
    alloc_ size n s log = Returned tt s' (log ++ ev)
    /\ images ev = [slotImage ATTACHMENT_ZVALTEX size n].
Proof.
  unfold allocSlot, slotImage, bind, history, call, modify, get; simpl.
  destruct (n =? ATTACHMENT_ZVALTEX)%nat; simpl;
    rewrite <- !app_assoc; simpl;
    (do 2 eexists; split; reflexivity).
Qed.

Lemma allocLoop_images size k : forall i (s : GB) log,
  exists ev s',
    forUp i k (alloc_ size) s log = Returned tt s' (log ++ ev)
    /\ images ev = map (slotImage ATTACHMENT_ZVALTEX size) (seq i k).
Proof.
  induction k as [|k IH]; intros i s log.
  - exists [], s. simpl. by rewrite app_nil_r.
  - destruct (allocSlot_images size i s log) as (ev1 & s1 & E1 & I1).
    destruct (IH (S i) s1 (log ++ ev1)) as (ev2 & s2 & E2 & I2).
    exists (ev1 ++ ev2), s2. simpl. unfold bind at 1.
    rewrite E1, E2, app_assoc, images_app, I1, I2. done.
Qed.

(** The images of one [Create]: one per slot, in slot order, of the
    requested size, also when the run stops at the validity assertion. *)
Lemma Create_images size (s : GB) log :
  exists calls,
    calls_of (create_ size s log) = log ++ calls
    /\ images calls = map (slotImage ATTACHMENT_ZVALTEX size)
                          (seq 0 ATTACHMENT_COUNT).
Proof.
  destruct (allocLoop_images size ATTACHMENT_COUNT 0%nat s log)
    as (ev & s1 & E & I).
  destruct (attachCalls_carry (bufferTextureIDs s1) (bufferAttachments s1)
              ATTACHMENT_COUNT) as (A & _).
  unfold Create. unfold bind at 1. rewrite E.
  unfold bind at 1. unfold call at 1.
  unfold bind at 1. rewrite attachLoop_run.
  unfold bind, call, get, assert, history, modify, ret. simpl.
  destruct (IsValid (buffer s1)); simpl.
  - destruct (CheckStatus _ (buffer s1)) as [r b]. simpl.
    rewrite <- ?app_assoc. simpl. rewrite <- ?app_assoc.
    eexists. split; [reflexivity|].
    rewrite images_app. simpl. rewrite images_app, A, I. simpl.
    by rewrite app_nil_r.
  - rewrite <- ?app_assoc. simpl. rewrite <- ?app_assoc.
    eexists. split; [reflexivity|].
    rewrite images_app. simpl. rewrite images_app, A, I. simpl.
    by rewrite app_nil_r.
Qed.

(** X5.  The images [Update] allocates.  When it recreates (valid surface,
    and no attachments or another size than the viewport's) it allocates
    one image per slot, in slot order, each of the viewport size: a 32-bit
    float depth image for the depth slot and an RGBA image for every
    other slot.  In every other case it allocates none. *)
Theorem Update_images gr init (s : GB) log :
  exists calls,
    calls_of (update_ gr init s log) = log ++ calls
    /\ images calls =
         if IsValid (buffer s)
            && negb (HasAttachments s
                     && int2_eqb (prevBufferSize s) (GetWantedSize gr true))
         then map (slotImage ATTACHMENT_ZVALTEX (GetWantedSize gr true))
                  (seq 0 ATTACHMENT_COUNT)
         else [].
Proof.
  rewrite Update_unfold. cbv zeta.
  destruct (IsValid (buffer s)); simpl negb; cbv iota.
  2:{ exists []. by rewrite app_nil_r. }
  destruct (HasAttachments s); simpl.
  - destruct (int2_eqb _ _); simpl.
    { exists []. by rewrite app_nil_r. }
    destruct init.
    + rewrite DetachTextures_init. apply Create_images.
    + rewrite DetachTextures_calls.
      match goal with
      | |- context [calls_of (Create _ _ _ _ _ ?w ?st ?l)] =>
          destruct (Create_images w st l) as (calls & E & I)
      end.
      eexists. rewrite E, <- app_assoc. split; [reflexivity|].
      rewrite images_app, I.
      match goal with
      | |- context [detachCalls ?n ?ids] =>
          destruct (detachCalls_carry n ids) as (-> & _)
      end.
      reflexivity.
  - apply Create_images.
Qed.

(** ** Attachment points *)

Lemma colour_point n :
  (n < 32)%nat ->
  u32 (GL_COLOR_ATTACHMENT0 + Z.of_nat n) = GL_COLOR_ATTACHMENT0 + Z.of_nat n
  /\ GL_COLOR_ATTACHMENT0 + Z.of_nat n <> GL_DEPTH_ATTACHMENT.
Proof.
  intros Hn. unfold u32, GL_COLOR_ATTACHMENT0, GL_DEPTH_ATTACHMENT.
  split; [apply Z.mod_small|]; lia.
Qed.

(** With the depth slot last, the points [DetachTextures] detaches are the
    points [Create] records, in slot order. *)
Lemma tags_depth_last :
  (0 < ATTACHMENT_COUNT)%nat -> ATTACHMENT_ZVALTEX = (ATTACHMENT_COUNT - 1)%nat ->
  map tagOf (seq 0 ATTACHMENT_COUNT) =
    map (fun j => u32 (GL_COLOR_ATTACHMENT0 + Z.of_nat j))
        (seq 0 (ATTACHMENT_COUNT - 1))
      ++ [GL_DEPTH_ATTACHMENT].
Proof.
  intros Hn ->. destruct ATTACHMENT_COUNT as [|m]; [lia|].
  replace (S m - 1)%nat with m by lia.
  rewrite seq_S, map_app. simpl. f_equal.
  - apply map_ext_in. intros a [_ Ha]%in_seq. unfold slotAttachment.
    destruct (Nat.eqb_spec a m); [lia | reflexivity].
  - unfold slotAttachment. by rewrite Nat.eqb_refl.
Qed.

(** The first [ATTACHMENT_COUNT - 1] recorded points are the colour points
    when the depth slot is not among the first [ATTACHMENT_COUNT - 1]. *)
Lemma tags_colour_prefix :
  (ATTACHMENT_COUNT - 1 <= ATTACHMENT_ZVALTEX)%nat ->
  (ATTACHMENT_COUNT <= 33)%nat ->
  take (ATTACHMENT_COUNT - 1) (map tagOf (seq 0 ATTACHMENT_COUNT)) =
    map (fun n => GL_COLOR_ATTACHMENT0 + Z.of_nat n)
        (seq 0 (ATTACHMENT_COUNT - 1)).
Proof.
  intros Hz Hn. rewrite firstn_map, take_seq.
  replace ((ATTACHMENT_COUNT - 1) `min` ATTACHMENT_COUNT)%nat
    with (ATTACHMENT_COUNT - 1)%nat by lia.
  apply map_ext_in. intros a [_ Ha]%in_seq. unfold slotAttachment.
  destruct (Nat.eqb_spec a ATTACHMENT_ZVALTEX); [lia|].
  apply colour_point. lia.
Qed.

Lemma tags_distinct :
  (ATTACHMENT_COUNT <= 32)%nat -> NoDup (map tagOf (seq 0 ATTACHMENT_COUNT)).
Proof.
  intros Hn. change (NoDup (tagOf <$> seq 0 ATTACHMENT_COUNT)).
  apply NoDup_fmap_2_strong; [|apply NoDup_seq].
  intros a b [_ Ha]%elem_of_seq [_ Hb]%elem_of_seq. unfold slotAttachment.
  destruct (colour_point a) as [Ea Da]; [lia|].
  destruct (colour_point b) as [Eb Db]; [lia|].
  destruct (Nat.eqb_spec a ATTACHMENT_ZVALTEX),
           (Nat.eqb_spec b ATTACHMENT_ZVALTEX); rewrite ?Ea, ?Eb;
    intros E; first [congruence | lia].
Qed.

(** X6.  Draw buffers.  When [Update] recreates, it declares the draw
    buffers once; if the depth slot is the last slot (or there is none)
    and there are at most 33 slots, the declared buffers are the colour
    attachment points in order, and the depth attachment point is not
    among them. *)
Theorem Update_draw_buffers gr init (s : GB) log r s' log' :
  wellFormed ATTACHMENT_COUNT s ->
  IsValid (buffer s) = true ->
  HasAttachments s = false
    \/ int2_eqb (prevBufferSize s) (GetWantedSize gr true) = false ->
  (ATTACHMENT_COUNT - 1 <= ATTACHMENT_ZVALTEX)%nat ->
  (ATTACHMENT_COUNT <= 33)%nat ->
  update_ gr init s log = Returned r s' log' ->
  exists calls,
    log' = log ++ calls
    /\ drawBuffers calls =
         [((ATTACHMENT_COUNT - 1)%nat,
           map (fun n => GL_COLOR_ATTACHMENT0 + Z.of_nat n)
               (seq 0 (ATTACHMENT_COUNT - 1)))]
    /\ Forall (fun a => a <> GL_DEPTH_ATTACHMENT)
              (map (fun n => GL_COLOR_ATTACHMENT0 + Z.of_nat n)
                   (seq 0 (ATTACHMENT_COUNT - 1))).
Proof.
  intros Hwf V Path Hz Hn U.
  destruct (Update_recreate_run _ _ _ _ _ _ _ V Path U)
    as (allocs & E & _ & F & _ & _ & _ & _ & W).
  destruct (W Hwf) as [_ A]. cbv zeta in E. subst log'.
  eexists. split; [reflexivity|]. split.
  - rewrite !drawBuffers_app.
    destruct (setup_carries_nothing _ F) as (-> & _).
    assert (drawBuffers (if HasAttachments s && negb init
                         then detachCalls ATTACHMENT_COUNT (bufferTextureIDs s)
                         else []) = []) as ->.
    { destruct (_ && _); [|reflexivity].
      by destruct (detachCalls_carry ATTACHMENT_COUNT (bufferTextureIDs s))
        as (_ & _ & -> & _). }
    unfold bindAndAttach. simpl. rewrite drawBuffers_app.
    destruct (attachCalls_carry (bufferTextureIDs s') (bufferAttachments s')
                ATTACHMENT_COUNT) as (_ & -> & _).
    simpl. by rewrite A, tags_colour_prefix.
  - apply List.Forall_forall. intros a [n [<- [_ Hlt]%in_seq]]%in_map_iff.
    apply colour_point. lia.
Qed.

(** X7.  When [Update] recreates and there are at most 32 slots, no two
    slots record the same attachment point. *)
Theorem Update_points_distinct gr init (s : GB) log r s' log' :
  wellFormed ATTACHMENT_COUNT s ->
  IsValid (buffer s) = true ->
  HasAttachments s = false
    \/ int2_eqb (prevBufferSize s) (GetWantedSize gr true) = false ->
  (ATTACHMENT_COUNT <= 32)%nat ->
  update_ gr init s log = Returned r s' log' ->
  NoDup (bufferAttachments s').
Proof.
  intros Hwf V Path Hn U.
  destruct (Update_recreate_run _ _ _ _ _ _ _ V Path U)
    as (allocs & _ & _ & _ & _ & _ & _ & _ & W).
  destruct (W Hwf) as [_ ->]. by apply tags_distinct.
Qed.

(** X8.  A resize.  [Update] with [init] clear, on a valid surface with
    attachments of another size than the viewport's, first releases (bind,
    detach, unbind, then one delete of exactly the handles held) and only
    then recreates: the calls after the release block release nothing,
    every slot holds a newly generated name, and both sizes are the
    viewport size. *)
Theorem Update_resize_cycle gr (s : GB) log r s' log' :
  wellFormed ATTACHMENT_COUNT s ->
  IsValid (buffer s) = true ->
  HasAttachments s = true ->
  int2_eqb (prevBufferSize s) (GetWantedSize gr true) = false ->
  update_ gr false s log = Returned r s' log' ->
  exists made,
    log' = log ++ detachCalls ATTACHMENT_COUNT (bufferTextureIDs s) ++ made
    /\ deleted (detachCalls ATTACHMENT_COUNT (bufferTextureIDs s) ++ made)
       = [(ATTACHMENT_COUNT, bufferTextureIDs s)]
    /\ Forall (fun c => isRelease c = false) made
    /\ generated (detachCalls ATTACHMENT_COUNT (bufferTextureIDs s)) = []
    /\ bufferTextureIDs s' = generated made
    /\ length (generated made) = ATTACHMENT_COUNT
    /\ prevBufferSize s' = GetWantedSize gr true
    /\ currBufferSize s' = GetWantedSize gr true.
Proof.
  intros Hwf V H Q. rewrite Update_unfold. cbv zeta.
  rewrite V, H, Q, DetachTextures_calls. simpl negb. cbv iota. intros C.
  pose proof (Create_returned _ _ _ _ _ _ C) as (_ & P & Cu & _).
  apply Create_calls in C as (made & -> & _ & G & R & W).
  destruct W as [I _]; [split; apply length_replicate|].
  exists made. rewrite <- app_assoc.
  destruct (detachCalls_carry ATTACHMENT_COUNT (bufferTextureIDs s))
    as (_ & Gd & _ & _ & Dd & _).
  split; [by destruct s|]. split.
  { rewrite deleted_app, Dd.
    assert (deleted made = []) as ->; [|reflexivity].
    clear -R. induction R as [|c l Hc _ IH]; [reflexivity|].
    destruct c; simpl in *; try discriminate; exact IH. }
  repeat (split; [done|]). by destruct s.
Qed.

(** ** Release *)

Lemma attached_points_of_tags (ids : list Z) :
  map snd (map (fun m => (default 0 (ids !! m),
                          default 0 (map tagOf (seq 0 ATTACHMENT_COUNT) !! m)))
               (rev (seq 0 ATTACHMENT_COUNT)))
  = rev (map tagOf (seq 0 ATTACHMENT_COUNT)).
Proof.
  rewrite map_map. simpl. rewrite <- map_rev.
  apply map_ext_in. intros m Hm. apply in_rev, in_seq in Hm as [_ Hm].
  change (map tagOf (seq 0 ATTACHMENT_COUNT))
    with (tagOf <$> seq 0 ATTACHMENT_COUNT).
  rewrite list_lookup_fmap.
  assert (seq 0 ATTACHMENT_COUNT !! m = Some m) as ->; [|reflexivity].
  apply lookup_seq. lia.
Qed.

(** X9.  Release undoes creation.  If [Update] recreated, the surface is
    still valid and the depth slot is the last slot, then [Kill] on the
    live object deletes exactly the names that [Update] generated, detaches
    exactly the points that [Update] attached (in slot order, the reverse
    of the attach order), and leaves both arrays zeroed and the object
    dead. *)
Theorem Kill_releases_what_Update_made gr init dtor (s : GB) log r s' log' :
  wellFormed ATTACHMENT_COUNT s ->
  IsValid (buffer s) = true ->
  HasAttachments s = false
    \/ int2_eqb (prevBufferSize s) (GetWantedSize gr true) = false ->
  (0 < ATTACHMENT_COUNT)%nat ->
  ATTACHMENT_ZVALTEX = (ATTACHMENT_COUNT - 1)%nat ->
  dead s = false ->
  update_ gr init s log = Returned r s' log' ->
  IsValid (buffer s') = true ->
  exists made gone,
    log' = log ++ made
    /\ kill_ dtor s' log' =
         Returned tt
           (set_dead true
              (set_bufferAttachments (zeroed ATTACHMENT_COUNT)
                 (set_bufferTextureIDs (zeroed ATTACHMENT_COUNT) s')))
           (log' ++ gone)
    /\ deleted gone = [(ATTACHMENT_COUNT, generated made)]
    /\ detached gone = rev (map snd (attached made)).
Proof.
  intros Hwf V Path Hn Hz Hd U V'.
  destruct (Update_recreate_run _ _ _ _ _ _ _ V Path U)
    as (allocs & E & _ & F & _ & _ & D & _ & W).
  destruct (W Hwf) as [I A]. cbv zeta in E.
  eexists. exists (detachCalls ATTACHMENT_COUNT (bufferTextureIDs s')).
  split; [exact E|]. split.
  { unfold Kill, bind, get, assert, modify, ret.
    rewrite D, Hd, V', DetachTextures_calls. reflexivity. }
  destruct (detachCalls_carry ATTACHMENT_COUNT (bufferTextureIDs s'))
    as (_ & _ & _ & _ & Dd & Dt).
  destruct (setup_carries_nothing _ F) as (_ & _ & _ & Fa).
  destruct (bindAndAttach_quiet ATTACHMENT_COUNT (bufferTextureIDs s')
              (bufferAttachments s') [FBO_CheckStatus; FBO_Unbind])
    as (Gb & _); [by repeat constructor|].
  assert (generated (if HasAttachments s && negb init
                     then detachCalls ATTACHMENT_COUNT (bufferTextureIDs s)
                     else []) = []
          /\ attached (if HasAttachments s && negb init
                       then detachCalls ATTACHMENT_COUNT (bufferTextureIDs s)
                       else []) = []) as [Gp Ap].
  { destruct (_ && _); [|done].
    by destruct (detachCalls_carry ATTACHMENT_COUNT (bufferTextureIDs s))
      as (_ & -> & _ & -> & _). }
  split.
  - rewrite Dd, <- (app_assoc allocs).
    rewrite (generated_app _ (allocs ++ _)), (generated_app allocs), Gp, Gb.
    simpl. by rewrite app_nil_r, I.
  - rewrite Dt, <- (tags_depth_last Hn Hz).
    rewrite (attached_app _ ((allocs ++ _) ++ _)), Ap.
    rewrite <- (app_assoc allocs), (attached_app allocs), Fa.
    unfold bindAndAttach. simpl. rewrite <- app_assoc, attached_app.
    destruct (attachCalls_carry (bufferTextureIDs s') (bufferAttachments s')
                ATTACHMENT_COUNT) as (_ & _ & _ & _ & ->).
    simpl. rewrite app_nil_r, A, attached_points_of_tags.
    by rewrite rev_involutive.
Qed.

(** X10.  [Kill] on a live object whose surface is not valid makes no call
    and leaves the handles and tags in the arrays; it only marks the object
    dead, after which no [Kill] makes a call either: the handles are never
    detached or deleted. *)
Theorem Kill_invalid_surface_releases_nothing dtor (s : GB) log :
  dead s = false ->
  IsValid (buffer s) = false ->
  kill_ dtor s log = Returned tt (set_dead true s) log
  /\ forall later l, calls_of (kill_ later (set_dead true s) l) = l.
Proof.
  intros D V. unfold Kill, bind, get, assert, modify, ret. simpl.
  rewrite D, V. split; [reflexivity|]. intros later l. by destruct later.
Qed.

(** X11.  [Kill] is idempotent for the destructor: after any [Kill] that
    returned, [Kill] with [dtor] set changes nothing and makes no call. *)
Theorem Kill_again_is_noop dtor (s : GB) log s1 log1 :
  Kill IsValid ATTACHMENT_COUNT dtor s log = Returned tt s1 log1 ->
  Kill IsValid ATTACHMENT_COUNT true s1 log1 = Returned tt s1 log1.
Proof.
  intros K.
  assert (dead s1 = true) as D.
  { revert K. unfold Kill, bind, get, assert, modify, ret.
    destruct (dead s) eqn:Ds.
    - destruct dtor; [|discriminate]. by intros [= <- <-].
    - destruct (IsValid (buffer s)).
      + rewrite DetachTextures_calls. by intros [= <- <-].
      + by intros [= <- <-]. }
  unfold Kill, bind, get, assert. by rewrite D.
Qed.

(** X12.  [Init] leaves the object unbound, so a [Clear] that follows it
    directly stops at its assertion before making any call. *)
Theorem Clear_after_Init_fails gr ctor (s : GB) log s1 log1 :
  init_ gr ctor s log = Returned tt s1 log1 ->
  Clear s1 log1 = AssertionFailed log1.
Proof.
  unfold Init, bind, get, assert, modify.
  destruct (negb (dead s) || negb ctor); [|discriminate].
  intros [= <- <-]. reflexivity.
Qed.

(** ** Depth range *)

Lemma SFltb_irrefl a : SFltb a a = false.
Proof.
  unfold SFltb. destruct a as [[]|[]| |[] m e]; simpl; try reflexivity;
    rewrite Z.compare_refl, Pos.compare_cont_refl; reflexivity.
Qed.

Lemma SFltb_asym a b : SFltb a b = true -> SFltb b a = false.
Proof.
  unfold SFltb.
  destruct a as [[]|[]| |[] m1 e1], b as [[]|[]| |[] m2 e2]; simpl;
    try reflexivity; try discriminate.
  all: rewrite (Z.compare_antisym e1 e2);
    pose proof (Pos.compare_cont_antisym m1 m2 Eq) as P; simpl in P;
    destruct (e1 ?= e2)%Z; simpl; try reflexivity; try discriminate;
    rewrite <- P;
    destruct (Pos.compare_cont Eq m1 m2); simpl; try reflexivity; discriminate.
Qed.

(** X13.  [SetDepthRange] never fails and never changes the object.  The
    depth-clear value it sets is one of the two endpoints, and it compares
    below neither of them, in whichever order they are given; the depth
    function is always [GL_LEQUAL]. *)
Theorem SetDepthRange_clear_depth nearDepth farDepth (s : GB) log :
  exists d,
    SetDepthRange nearDepth farDepth s log =
      Returned tt s (log ++ [glClearDepth d; DepthFunc GL_LEQUAL])
    /\ (d = nearDepth \/ d = farDepth)
    /\ SFltb d nearDepth = false
    /\ SFltb d farDepth = false.
Proof.
  exists (std_max nearDepth farDepth).
  split.
  - unfold SetDepthRange, bind, call. by rewrite <- app_assoc.
  - unfold std_max. destruct (SFltb nearDepth farDepth) eqn:L.
    + split; [by right|]. split; [by apply SFltb_asym | apply SFltb_irrefl].
    + split; [by left|]. split; [apply SFltb_irrefl | exact L].
Qed.

End Properties.

(** ** The claims that fail as stated, on the concrete driver *)

(** C1 as stated fails: re-initialising a live object outside construction
    is accepted, where the claim has it rejected. *)
Lemma Init_live_reload_accepted :
  ~ (failed (Concrete.init Concrete.gr800 false
               (Concrete.fresh Concrete.goodFBO) []) = true
     <-> dead (Concrete.fresh Concrete.goodFBO) = false /\ false = false).
Proof. intros [_ H]. specialize (H (conj eq_refl eq_refl)). discriminate H. Qed.


(** C3 as stated fails: with the flag false and an 800x600 viewport the
    recomputed size is 800x600, not (0,0). *)
Lemma Update_false_keeps_viewport :
  currBufferSize <$>
    state_of (Concrete.update true Concrete.gr800 false
                (Concrete.fresh Concrete.goodFBO) [])
  <> Some (mkInt2 0 0).
Proof. vm_compute. discriminate. Qed.

(** C4 as stated fails: on an invalid surface [Update] returns [false]; it
    does not stop at an assertion. *)
Lemma Update_invalid_returns_false :
  failed (Concrete.update true Concrete.gr800 true
            (Concrete.fresh Concrete.badFBO) []) <> true
  /\ result_of (Concrete.update true Concrete.gr800 true
                  (Concrete.fresh Concrete.badFBO) []) = Some false.
Proof. vm_compute. split; [discriminate | reflexivity]. Qed.

(** C9 as stated fails: under the strict status check, the [Update] whose
    [Create] was refused leaves attachments behind, yet the next [Update]
    at the same size returns [false], not [true]. *)
Lemma failed_Create_reported_false :
  Concrete.update false Concrete.gr800 true (Concrete.fresh Concrete.goodFBO) []
    = Returned false (Concrete.realized false) Concrete.createLog
  /\ HasAttachments (Concrete.realized false) = true
  /\ result_of (Concrete.update false Concrete.gr800 true
                  (Concrete.realized false) Concrete.createLog)
     <> Some true.
Proof.
  split; [vm_compute; reflexivity|]. split; [reflexivity|].
  vm_compute. discriminate.
Qed.

(** C6 as stated fails: the surface is valid when the first [Update] is
    made, but that call's status check is refused and, being strict, clears
    the validity; the second [Update] under the same viewport then returns
    [false], not [true]. *)
Lemma second_Update_reports_false :
  Concrete.IsValid (buffer (Concrete.fresh Concrete.goodFBO)) = true
  /\ Concrete.update false Concrete.gr800 true
       (Concrete.fresh Concrete.goodFBO) []
     = Returned false (Concrete.realized false) Concrete.createLog
  /\ Concrete.update false Concrete.gr800 false
       (Concrete.realized false) Concrete.createLog
     <> Returned true (Concrete.realized false) Concrete.createLog.
Proof.
  split; [reflexivity|]. split; [vm_compute; reflexivity|].
  vm_compute. discriminate.
Qed.

(** ** The theorems at work on the concrete driver *)


Lemma Update_invalid_surface_witness :
  Concrete.update true Concrete.gr800 false (Concrete.populated Concrete.badFBO) []
  = Returned false (Concrete.populated Concrete.badFBO) [].
Proof.
  apply (Update_invalid_surface Concrete.IsValid (Concrete.strictCheck true)
           Concrete.genName Concrete.COUNT Concrete.ZVALTEX Concrete.gr800 false
           (Concrete.populated Concrete.badFBO) []).
  reflexivity.
Defined.

Lemma first_Update_after_Init_witness :
  Concrete.init Concrete.gr800 false (Concrete.killed Concrete.goodFBO) []
    = Returned tt (Concrete.fresh Concrete.goodFBO) []
  /\ exists r s' calls,
       Concrete.update true Concrete.gr800 true
         (Concrete.fresh Concrete.goodFBO) [] = Returned r s' ([] ++ calls)
       /\ count isTexImage calls = Concrete.COUNT
       /\ length (generated calls) = Concrete.COUNT
       /\ prevBufferSize s' = GetWantedSize Concrete.gr800 true.
Proof.
  split; [reflexivity|].
  apply (first_Update_after_Init Concrete.IsValid (Concrete.strictCheck true)
           Concrete.genName Concrete.COUNT Concrete.ZVALTEX
           Concrete.gr800 false (Concrete.killed Concrete.goodFBO) []
           (Concrete.fresh Concrete.goodFBO) [] Concrete.gr800 true);
    reflexivity.
Defined.

Lemma Update_twice_settles_witness :
  Concrete.update true Concrete.gr800 true (Concrete.fresh Concrete.goodFBO) []
    = Returned true (Concrete.realized true) Concrete.createLog
  /\ Concrete.update true Concrete.gr800 false
       (Concrete.realized true) Concrete.createLog
     = Returned true (Concrete.realized true) Concrete.createLog.
Proof.
  split; [vm_compute; reflexivity|].
  apply (Update_twice_settles Concrete.IsValid (Concrete.strictCheck true)
           Concrete.genName Concrete.COUNT Concrete.ZVALTEX
           Concrete.gr800 true false (Concrete.fresh Concrete.goodFBO) []
           true (Concrete.realized true) Concrete.createLog).
  - split; reflexivity.
  - unfold Concrete.COUNT; lia.
  - reflexivity.
  - vm_compute; reflexivity.
  - reflexivity.
Defined.

Lemma recreation_not_retried_witness :
  Concrete.update false Concrete.gr800 true (Concrete.fresh Concrete.goodFBO) []
    = Returned false (Concrete.realized false) Concrete.createLog
  /\ forall inits,
       runUpdates (Concrete.update false Concrete.gr800) inits
         (Concrete.realized false) Concrete.createLog
       = Returned tt (Concrete.realized false) Concrete.createLog.
Proof.
  split; [vm_compute; reflexivity|].
  apply (recreation_not_retried Concrete.IsValid (Concrete.strictCheck false)
           Concrete.genName Concrete.COUNT Concrete.ZVALTEX
           Concrete.gr800 true (Concrete.fresh Concrete.goodFBO) []
           false (Concrete.realized false) Concrete.createLog).
  - split; reflexivity.
  - unfold Concrete.COUNT; lia.
  - reflexivity.
  - left; reflexivity.
  - vm_compute; reflexivity.
Defined.

Lemma Create_call_order_witness :
  wellFormed Concrete.COUNT (Concrete.fresh Concrete.goodFBO)
  /\ exists allocs,
       calls_of (Concrete.create true (mkInt2 800 600)
                   (Concrete.fresh Concrete.goodFBO) []) =
         [] ++ allocs
            ++ FBO_Bind ::
               attachCalls (generated allocs)
                 (map (slotAttachment Concrete.ZVALTEX) (seq 0 Concrete.COUNT))
                 Concrete.COUNT
            ++ [glBindTexture GL_TEXTURE_2D 0;
                glDrawBuffers (Concrete.COUNT - 1)
                  (take (Concrete.COUNT - 1)
                     (map (slotAttachment Concrete.ZVALTEX)
                          (seq 0 Concrete.COUNT)))]
            ++ [FBO_CheckStatus; FBO_Unbind]
       /\ count isTexImage allocs = Concrete.COUNT.
Proof.
  split; [split; reflexivity|].
  destruct (Create_call_order Concrete.IsValid (Concrete.strictCheck true)
              Concrete.genName Concrete.COUNT Concrete.ZVALTEX
              (mkInt2 800 600) (Concrete.fresh Concrete.goodFBO) [])
    as (allocs & E & _ & C & _); [split; reflexivity|].
  exists allocs. split; [exact E | exact C].
Defined.

Lemma failed_Create_then_Update_witness :
  Concrete.createLenient false (mkInt2 800 600)
    (set_prevBufferSize (mkInt2 800 600) (Concrete.fresh Concrete.goodFBO)) []
    = Returned false
        (set_buffer Concrete.goodFBO (Concrete.realized false)) Concrete.createLog
  /\ Concrete.updateLenient false Concrete.gr800 true
       (set_buffer Concrete.goodFBO (Concrete.realized false)) Concrete.createLog
     = Returned true
         (set_buffer Concrete.goodFBO (Concrete.realized false)) Concrete.createLog.
Proof.
  split; [vm_compute; reflexivity|].
  apply (failed_Create_then_Update Concrete.IsValid (Concrete.lenientCheck false)
           Concrete.genName Concrete.COUNT Concrete.ZVALTEX
           (mkInt2 800 600)
           (set_prevBufferSize (mkInt2 800 600) (Concrete.fresh Concrete.goodFBO))
           []
           (set_buffer Concrete.goodFBO (Concrete.realized false))
           Concrete.createLog Concrete.gr800 true).
  - split; reflexivity.
  - unfold Concrete.COUNT; lia.
  - vm_compute; reflexivity.
  - reflexivity.
Defined.


Lemma Update_result_witness :
  Concrete.createLog <> []
  /\ (true, buffer (Concrete.realized true)) =
       Concrete.strictCheck true
         (take (length Concrete.createLog - 2) Concrete.createLog)
         (buffer (Concrete.fresh Concrete.goodFBO)).
Proof.
  assert (Concrete.createLog <> []) as NE by discriminate.
  split; [exact NE|].
  apply (Update_result Concrete.IsValid (Concrete.strictCheck true)
           Concrete.genName Concrete.COUNT Concrete.ZVALTEX
           Concrete.gr800 true (Concrete.fresh Concrete.goodFBO) []
           true (Concrete.realized true) Concrete.createLog);
    [vm_compute; reflexivity | exact NE].
Defined.

Lemma Update_draw_buffers_witness :
  exists calls,
    Concrete.createLog = [] ++ calls
    /\ drawBuffers calls =
         [(5%nat, map (fun n => GL_COLOR_ATTACHMENT0 + Z.of_nat n) (seq 0 5))]
    /\ Forall (fun a => a <> GL_DEPTH_ATTACHMENT)
              (map (fun n => GL_COLOR_ATTACHMENT0 + Z.of_nat n) (seq 0 5)).
Proof.
  apply (Update_draw_buffers Concrete.IsValid (Concrete.strictCheck true)
           Concrete.genName Concrete.COUNT Concrete.ZVALTEX
           Concrete.gr800 true (Concrete.fresh Concrete.goodFBO) []
           true (Concrete.realized true) Concrete.createLog).
  - split; reflexivity.
  - reflexivity.
  - left; reflexivity.
  - unfold Concrete.COUNT, Concrete.ZVALTEX; lia.
  - unfold Concrete.COUNT; lia.
  - vm_compute; reflexivity.
Defined.

Lemma Update_points_distinct_witness :
  NoDup (bufferAttachments (Concrete.realized true)).
Proof.
  apply (Update_points_distinct Concrete.IsValid (Concrete.strictCheck true)
           Concrete.genName Concrete.COUNT Concrete.ZVALTEX
           Concrete.gr800 true (Concrete.fresh Concrete.goodFBO) []
           true (Concrete.realized true) Concrete.createLog).
  - split; reflexivity.
  - reflexivity.
  - left; reflexivity.
  - unfold Concrete.COUNT; lia.
  - vm_compute; reflexivity.
Defined.

Lemma Update_resize_cycle_witness :
  Concrete.update true (mkGR 1024 768) false
    (Concrete.populated Concrete.goodFBO) []
    = Returned true Concrete.resized Concrete.resizeLog
  /\ exists made,
       Concrete.resizeLog =
         [] ++ detachCalls Concrete.COUNT [11; 12; 13; 14; 15; 16] ++ made
       /\ bufferTextureIDs Concrete.resized = generated made.
Proof.
  split; [vm_compute; reflexivity|].
  destruct (Update_resize_cycle Concrete.IsValid (Concrete.strictCheck true)
              Concrete.genName Concrete.COUNT Concrete.ZVALTEX
              (mkGR 1024 768) (Concrete.populated Concrete.goodFBO) []
              true Concrete.resized Concrete.resizeLog)
    as (made & E & _ & _ & _ & I & _).
  - split; reflexivity.
  - reflexivity.
  - reflexivity.
  - reflexivity.
  - vm_compute; reflexivity.
  - exists made. split; [exact E | exact I].
Defined.

Lemma Kill_releases_what_Update_made_witness :
  exists made gone,
    Concrete.createLog = [] ++ made
    /\ Concrete.kill false (Concrete.realized true) Concrete.createLog =
         Returned tt
           (set_dead true
              (set_bufferAttachments (zeroed Concrete.COUNT)
                 (set_bufferTextureIDs (zeroed Concrete.COUNT)
                    (Concrete.realized true))))
           (Concrete.createLog ++ gone)
    /\ deleted gone = [(Concrete.COUNT, generated made)]
    /\ detached gone = rev (map snd (attached made)).
Proof.
  apply (Kill_releases_what_Update_made Concrete.IsValid
           (Concrete.strictCheck true) Concrete.genName Concrete.COUNT
           Concrete.ZVALTEX Concrete.gr800 true false
           (Concrete.fresh Concrete.goodFBO) []
           true (Concrete.realized true) Concrete.createLog).
  - split; reflexivity.
  - reflexivity.
  - left; reflexivity.
  - unfold Concrete.COUNT; lia.
  - reflexivity.
  - reflexivity.
  - vm_compute; reflexivity.
  - reflexivity.
Defined.

Lemma Kill_invalid_surface_releases_nothing_witness :
  Concrete.kill false (Concrete.populated Concrete.badFBO) []
    = Returned tt (set_dead true (Concrete.populated Concrete.badFBO)) []
  /\ forall later l,
       calls_of (Concrete.kill later
                   (set_dead true (Concrete.populated Concrete.badFBO)) l) = l.
Proof.
  apply (Kill_invalid_surface_releases_nothing Concrete.IsValid Concrete.COUNT
           false (Concrete.populated Concrete.badFBO) []); reflexivity.
Defined.

Lemma Kill_again_is_noop_witness :
  Concrete.kill true (Concrete.killed Concrete.goodFBO) Concrete.killLog
  = Returned tt (Concrete.killed Concrete.goodFBO) Concrete.killLog.
Proof.
  apply (Kill_again_is_noop Concrete.IsValid Concrete.COUNT false
           (Concrete.populated Concrete.goodFBO) []
           (Concrete.killed Concrete.goodFBO) Concrete.killLog).
  reflexivity.
Defined.

Lemma Clear_after_Init_fails_witness :
  Clear (Concrete.fresh Concrete.goodFBO) [] = AssertionFailed [].
Proof.
  apply (Clear_after_Init_fails Concrete.COUNT Concrete.gr800 false
           (Concrete.killed Concrete.goodFBO) []
           (Concrete.fresh Concrete.goodFBO) []).
  reflexivity.
Defined.
